(** * Weather dashboard: data-access layer, proxy route and search handler

    A shallow embedding of
      - [src/lib/weatherService.ts]  (cache, normalisation, fallbacks),
      - [src/app/api/weather/route.ts] (the same-origin proxy),
      - [src/app/page.tsx] ([handleSearch] and the state it writes),
    together with the fragment of the JavaScript runtime these files rely on
    (property reads, coercions, [JSON.stringify], [Math.round], [Date]).

    Modelling conventions.
      - A JavaScript number is an exact rational or [NaN]; binary64 rounding
        and the infinities are outside the model.
      - A JavaScript string is a [string] of 8-bit characters; case mapping
        is the ASCII one.
      - Code that can throw returns a [result]; [try]/[catch] is [try_catch].
      - The cache is a finite map from keys to stamped payloads.
      - An [await] is modelled as an atomic call: what the network, the clock
        and the random source answer during one call is an argument of the
        call (a [world]). *)

From Stdlib Require Import ZArith QArith Qround Qabs String Ascii List Lia.
From Stdlib Require Import DecimalString DecimalZ Lqa.
From stdpp Require Import base option list strings gmap.

#[local] Set Warnings "-register-all".
Local Open Scope Z_scope.

(** ** Numbers *)

Inductive num : Type :=
| NaN
| Fin (q : Q).

Definition num_of_Z (z : Z) : num := Fin (inject_Z z).

Definition num_mul (a b : num) : num :=
  match a, b with
  | Fin x, Fin y => Fin (Qred (x * y))
  | _, _ => NaN
  end.

Definition num_add (a b : num) : num :=
  match a, b with
  | Fin x, Fin y => Fin (Qred (x + y))
  | _, _ => NaN
  end.

(** [a / b]; the service only divides by the literal 1000.  A zero divisor
    would give an infinity (or [NaN] for 0/0), which the model folds into
    [NaN]. *)
Definition num_div (a b : num) : num :=
  match a, b with
  | Fin x, Fin y => if Qeq_bool y 0 then NaN else Fin (Qred (x / y))
  | _, _ => NaN
  end.

(** [Math.round]: the nearest integer, ties towards plus infinity. *)
Definition Math_round (a : num) : num :=
  match a with
  | NaN => NaN
  | Fin x => num_of_Z (Qfloor (x + (1 # 2)))
  end.

(** [Math.floor]. *)
Definition Math_floor (a : num) : num :=
  match a with
  | NaN => NaN
  | Fin x => num_of_Z (Qfloor x)
  end.

(** ** Values *)

Inductive value : Type :=
| VUndef
| VNull
| VBool (b : bool)
| VNum (n : num)
| VStr (s : string)
| VArr (l : list value)
| VObj (l : list (string * value)).

(** Own properties of an object, in enumeration order; a read finds the first
    binding of the name. *)
Fixpoint own_prop (k : string) (l : list (string * value)) : option value :=
  match l with
  | [] => None
  | (k', v) :: r => if String.eqb k k' then Some v else own_prop k r
  end.

(** ** Exceptions *)

Inductive exn : Type :=
| TypeError (msg : string)
| RangeError (msg : string)
| SyntaxError (msg : string)
| Error (msg : string).

Definition message (e : exn) : string :=
  match e with
  | TypeError m | RangeError m | SyntaxError m | Error m => m
  end.

Inductive result (A : Type) : Type :=
| Ok (a : A)
| Throw (e : exn).
Arguments Ok {A} a.
Arguments Throw {A} e.

#[export] Instance result_ret : MRet result := fun A a => Ok a.
#[export] Instance result_bind : MBind result := fun A B f r =>
  match r with
  | Ok a => f a
  | Throw e => Throw e
  end.

#[export] Instance result_fmap : FMap result := fun A B f r =>
  match r with
  | Ok a => Ok (f a)
  | Throw e => Throw e
  end.

Definition is_ok {A} (r : result A) : bool :=
  match r with Ok _ => true | Throw _ => false end.

(** Map a throwing callback over a list, left to right; the first exception
    aborts the traversal ([Array.prototype.map]). *)
Fixpoint mapM_result {A B} (f : nat -> A -> result B) (i : nat) (l : list A)
  : result (list B) :=
  match l with
  | [] => Ok []
  | x :: r =>
      y ← f i x;
      ys ← mapM_result f (S i) r;
      Ok (y :: ys)
  end.

(** ** Strings *)

Definition lower_ascii (c : ascii) : ascii :=
  let n := N_of_ascii c in
  if ((65 <=? n) && (n <=? 90))%N then ascii_of_N (n + 32) else c.

(** [String.prototype.toLowerCase]. *)
Fixpoint toLowerCase (s : string) : string :=
  match s with
  | EmptyString => EmptyString
  | String c r => String (lower_ascii c) (toLowerCase r)
  end.

Fixpoint starts_with (p s : string) : bool :=
  match p, s with
  | EmptyString, _ => true
  | String a p', String b s' => if Ascii.eqb a b then starts_with p' s' else false
  | String _ _, EmptyString => false
  end.

(** [String.prototype.includes]: [s.includes(p)]. *)
Fixpoint includes (s p : string) : bool :=
  if starts_with p s then true
  else match s with
       | EmptyString => false
       | String _ r => includes r p
       end.

Fixpoint join (sep : string) (l : list string) : string :=
  match l with
  | [] => EmptyString
  | [x] => x
  | x :: r => x +:+ sep +:+ join sep r
  end.

(** ** Printing numbers

    [Number::toString] on the rational model: the sign, the integer part and
    the exact decimal expansion of the fraction.  It agrees with the runtime
    on the decimals a JSON payload or a coordinate carries (no exponent
    form). *)

Definition Z_to_string (z : Z) : string := NilZero.string_of_int (Z.to_int z).

Definition digit_char (d : Z) : ascii := ascii_of_N (48 + Z.to_N d).

Fixpoint frac_digits (fuel : nat) (r d : Z) : string :=
  match fuel with
  | O => EmptyString
  | S f =>
      if r =? 0 then EmptyString
      else String (digit_char ((10 * r) / d)) (frac_digits f ((10 * r) mod d) d)
  end.

Definition NumberToString (n : num) : string :=
  match n with
  | NaN => "NaN"
  | Fin q =>
      let q := Qred q in
      let d := Z.pos (Qden q) in
      let a := Z.abs (Qnum q) in
      (if Qnum q <? 0 then "-" else "")
        +:+ Z_to_string (a / d)
        +:+ (if a mod d =? 0 then ""
             else "." +:+ frac_digits (S (Z.to_nat (Z.log2 d))) (a mod d) d)
  end.

(** ** [ToString] and [ToPrimitive] on parsed JSON

    A parsed JSON object has no callable own property, so an own [toString]
    shadows [Object.prototype.toString] with a non-function and the
    conversion throws; otherwise an object prints as [[object Object]].  An
    array prints through [Array.prototype.join]. *)

Definition cannot_convert : exn :=
  TypeError "Cannot convert object to primitive value".

Fixpoint ToString (v : value) : result string :=
  match v with
  | VUndef => Ok "undefined"
  | VNull => Ok "null"
  | VBool b => Ok (if b then "true" else "false")
  | VNum n => Ok (NumberToString n)
  | VStr s => Ok s
  | VArr l =>
      parts ← (fix go (l : list value) : result (list string) :=
                 match l with
                 | [] => Ok []
                 | x :: r =>
                     s ← match x with
                         | VUndef | VNull => Ok EmptyString
                         | _ => ToString x
                         end;
                     ss ← go r;
                     Ok (s :: ss)
                 end) l;
      Ok (join "," parts)
  | VObj l =>
      match own_prop "toString" l with
      | Some _ => Throw cannot_convert
      | None => Ok "[object Object]"
      end
  end.

(** ** [JSON.stringify] *)

Definition dquote : ascii := "034"%char.
Definition backslash : ascii := "092"%char.

Definition hex_lower (n : N) : ascii :=
  if (n <? 10)%N then ascii_of_N (48 + n) else ascii_of_N (87 + n).

Definition hex_upper (n : N) : ascii :=
  if (n <? 10)%N then ascii_of_N (48 + n) else ascii_of_N (55 + n).

Definition json_escape (c : ascii) : string :=
  let n := N_of_ascii c in
  if (n =? 34)%N then String backslash (String dquote EmptyString)
  else if (n =? 92)%N then String backslash (String backslash EmptyString)
  else if (n =? 8)%N then String backslash "b"
  else if (n =? 12)%N then String backslash "f"
  else if (n =? 10)%N then String backslash "n"
  else if (n =? 13)%N then String backslash "r"
  else if (n =? 9)%N then String backslash "t"
  else if (n <? 32)%N then
    String backslash
      ("u00" +:+ String (hex_lower (n / 16)) (String (hex_lower (n mod 16)) EmptyString))
  else String c EmptyString.

Fixpoint json_escape_all (s : string) : string :=
  match s with
  | EmptyString => EmptyString
  | String c r => json_escape c +:+ json_escape_all r
  end.

(** [QuoteJSONString]. *)
Definition json_quote (s : string) : string :=
  String dquote (json_escape_all s +:+ String dquote EmptyString).

(** [JSON.stringify v]; [None] is the [undefined] result.  Properties are
    written in enumeration order, and a property whose value serialises to
    [undefined] is left out. *)
Fixpoint JSON_stringify (v : value) : option string :=
  match v with
  | VUndef => None
  | VNull => Some "null"
  | VBool b => Some (if b then "true" else "false")
  | VNum NaN => Some "null"
  | VNum n => Some (NumberToString n)
  | VStr s => Some (json_quote s)
  | VArr l =>
      Some ("[" +:+ join ","
              ((fix go (l : list value) : list string :=
                  match l with
                  | [] => []
                  | x :: r => default "null" (JSON_stringify x) :: go r
                  end) l) +:+ "]")
  | VObj l =>
      Some ("{" +:+ join ","
              ((fix go (l : list (string * value)) : list string :=
                  match l with
                  | [] => []
                  | (k, x) :: r =>
                      match JSON_stringify x with
                      | Some s => (json_quote k +:+ ":" +:+ s) :: go r
                      | None => go r
                      end
                  end) l) +:+ "}")
  end.

(** ** [URLSearchParams] *)

Definition urlencode_byte (c : ascii) : string :=
  let n := N_of_ascii c in
  if ((48 <=? n) && (n <=? 57) || (65 <=? n) && (n <=? 90) || (97 <=? n) && (n <=? 122)
      || (n =? 42) || (n =? 45) || (n =? 46) || (n =? 95))%N
  then String c EmptyString
  else if (n =? 32)%N then "+"
  else String "%" (String (hex_upper (n / 16)) (String (hex_upper (n mod 16)) EmptyString)).

Fixpoint urlencode (s : string) : string :=
  match s with
  | EmptyString => EmptyString
  | String c r => urlencode_byte c +:+ urlencode r
  end.

(** [new URLSearchParams(params).toString()]: every value goes through
    [ToString], then the pairs are form-encoded in enumeration order. *)
Fixpoint URLSearchParams_pairs (params : list (string * value)) : result (list string) :=
  match params with
  | [] => Ok []
  | (k, v) :: r =>
      s ← ToString v;
      rest ← URLSearchParams_pairs r;
      Ok ((urlencode k +:+ "=" +:+ urlencode s) :: rest)
  end.

Definition URLSearchParams_toString (params : list (string * value)) : result string :=
  ps ← URLSearchParams_pairs params;
  Ok (join "&" ps).

(** ** Reading properties and calling methods

    [data.name] on [undefined] or [null] throws; on any other value it is the
    own property or [undefined].  None of the names the service reads is a
    member of a built-in prototype, so prototypes only matter for the three
    methods it calls ([slice], [map], [toLowerCase]), which have their own
    rules below. *)

Definition cannot_read (of_ k : string) : exn :=
  TypeError ("Cannot read properties of " +:+ of_ +:+ " (reading '" +:+ k +:+ "')").

Definition not_a_function (k : string) : exn :=
  TypeError (k +:+ " is not a function").

Definition get_prop (v : value) (k : string) : result value :=
  match v with
  | VUndef => Throw (cannot_read "undefined" k)
  | VNull => Throw (cannot_read "null" k)
  | VObj l => Ok (default VUndef (own_prop k l))
  | VArr l =>
      if String.eqb k "length" then Ok (VNum (num_of_Z (Z.of_nat (length l))))
      else Ok VUndef
  | VStr s =>
      if String.eqb k "length" then Ok (VNum (num_of_Z (Z.of_nat (String.length s))))
      else Ok VUndef
  | VBool _ | VNum _ => Ok VUndef
  end.

(** [v[i]] for a literal index [i]. *)
Definition get_index (v : value) (i : nat) : result value :=
  match v with
  | VUndef => Throw (cannot_read "undefined" (Z_to_string (Z.of_nat i)))
  | VNull => Throw (cannot_read "null" (Z_to_string (Z.of_nat i)))
  | VObj l => Ok (default VUndef (own_prop (Z_to_string (Z.of_nat i)) l))
  | VArr l => Ok (nth i l VUndef)
  | VStr s =>
      match String.get i s with
      | Some c => Ok (VStr (String c EmptyString))
      | None => Ok VUndef
      end
  | VBool _ | VNum _ => Ok VUndef
  end.

(** [ToBoolean]. *)
Definition truthy (v : value) : bool :=
  match v with
  | VUndef | VNull => false
  | VBool b => b
  | VNum NaN => false
  | VNum (Fin q) => negb (Qeq_bool q 0)
  | VStr s => negb (String.eqb s EmptyString)
  | VArr _ | VObj _ => true
  end.

(** [v.slice(0, n)]: arrays and strings have the method. *)
Definition call_slice (v : value) (n : nat) : result value :=
  match v with
  | VArr l => Ok (VArr (firstn n l))
  | VStr s => Ok (VStr (String.substring 0 n s))
  | VUndef => Throw (cannot_read "undefined" "slice")
  | VNull => Throw (cannot_read "null" "slice")
  | _ => Throw (not_a_function "slice")
  end.

(** The receiver of [v.map(f)]: only an array has the method. *)
Definition map_receiver (v : value) : result (list value) :=
  match v with
  | VArr l => Ok l
  | VUndef => Throw (cannot_read "undefined" "map")
  | VNull => Throw (cannot_read "null" "map")
  | _ => Throw (not_a_function "map")
  end.

(** [v.toLowerCase()]: only a string has the method. *)
Definition call_toLowerCase (v : value) : result string :=
  match v with
  | VStr s => Ok (toLowerCase s)
  | VUndef => Throw (cannot_read "undefined" "toLowerCase")
  | VNull => Throw (cannot_read "null" "toLowerCase")
  | _ => Throw (not_a_function "toLowerCase")
  end.

(** ** Dates

    A [Date] holds a time value in milliseconds since the epoch, or nothing
    (an invalid date). *)

Definition Date : Type := option Z.

Definition Qtruncate (q : Q) : Z :=
  if Qnum q <? 0 then Qceiling q else Qfloor q.

(** [TimeClip], as applied by [new Date(number)]. *)
Definition new_Date (n : num) : Date :=
  match n with
  | NaN => None
  | Fin q =>
      if Qle_bool (Qabs q) (inject_Z 8640000000000000) then Some (Qtruncate q)
      else None
  end.

Definition msPerDay : Z := 86400000.

(** [WeekDay(t)]: 0 is Sunday; the epoch was a Thursday. *)
Definition WeekDay (t : Z) : Z := (t / msPerDay + 4) mod 7.

Definition pad (width : nat) (z : Z) : string :=
  let s := Z_to_string z in
  String.string_of_list_ascii (repeat "0"%char (width - String.length s)) +:+ s.

(** The civil date (year, month, day) of a day number counted from the
    epoch, in the proleptic Gregorian calendar. *)
Definition civil_from_days (days : Z) : Z * Z * Z :=
  let z := days + 719468 in
  let era := z / 146097 in
  let doe := z - era * 146097 in
  let yoe := (doe - doe / 1460 + doe / 36524 - doe / 146096) / 365 in
  let doy := doe - (365 * yoe + yoe / 4 - yoe / 100) in
  let mp := (5 * doy + 2) / 153 in
  let d := doy - (153 * mp + 2) / 5 + 1 in
  let m := if mp <? 10 then mp + 3 else mp - 9 in
  let y := yoe + era * 400 + (if m <=? 2 then 1 else 0) in
  (y, m, d).

Definition iso_year (y : Z) : string :=
  if (0 <=? y) && (y <=? 9999) then pad 4 y
  else (if y <? 0 then "-" else "+") +:+ pad 6 (Z.abs y).

(** [Date.prototype.toISOString]: throws on an invalid date. *)
Definition toISOString (d : Date) : result string :=
  match d with
  | None => Throw (RangeError "Invalid time value")
  | Some t =>
      let '(y, m, dd) := civil_from_days (t / msPerDay) in
      let ms := t mod msPerDay in
      Ok (iso_year y +:+ "-" +:+ pad 2 m +:+ "-" +:+ pad 2 dd +:+ "T"
          +:+ pad 2 (ms / 3600000) +:+ ":" +:+ pad 2 (ms / 60000 mod 60) +:+ ":"
          +:+ pad 2 (ms / 1000 mod 60) +:+ "." +:+ pad 3 (ms mod 1000) +:+ "Z")
  end.

Definition days : list string := ["Sun"; "Mon"; "Tue"; "Wed"; "Thu"; "Fri"; "Sat"].

(** [arr[n]] for a numeric index [n] into an array of strings. *)
Definition index_strings (arr : list string) (n : num) : value :=
  match n with
  | NaN => VUndef
  | Fin q =>
      if Qeq_bool q (inject_Z (Qfloor q)) && (0 <=? Qfloor q)
      then match nth_error arr (Z.to_nat (Qfloor q)) with
           | Some s => VStr s
           | None => VUndef
           end
      else VUndef
  end.

(** ** View models

    A field the source fills with an expression of a fixed type ([Math.round],
    a template literal, a literal) has that type; a field copied from the
    payload is a [value], since nothing checks it against the interface. *)

Module WeatherData.
Record t : Type := mk {
  location : string;
  temperature : num;
  condition : value;
  humidity : value;
  windSpeed : num;
  visibility : num;
  feelsLike : num;
  icon : value;
  pressure : value;
  coordinates : value * value   (* lat, lon *)
}.
End WeatherData.

Module HourlyForecast.
Record t : Type := mk {
  time : string;
  temperature : num;
  condition : value;
  humidity : value;
  precipitation : num;
  windSpeed : num;
  icon : value
}.
End HourlyForecast.

Module DailyForecast.
Record t : Type := mk {
  date : string;
  day : value;
  highTemp : num;
  lowTemp : num;
  condition : value;
  precipitation : num;
  humidity : value;
  windSpeed : num;
  icon : value;
  uvIndex : value               (* [VUndef] when the property is absent *)
}.
End DailyForecast.

Inductive alert_type : Type := severe | moderate | minor.

Inductive alert_category : Type := storm | rain | wind | snow | temperature | other.

Module WeatherAlert.
Record t : Type := mk {
  id : string;
  type : alert_type;
  category : alert_category;
  title : value;
  description : value;
  location : string;
  severity : Z;
  startTime : string;
  endTime : string;
  isActive : bool
}.
End WeatherAlert.

(** *** Conformance to the declared interfaces *)

Definition is_string (v : value) : bool :=
  match v with VStr _ => true | _ => false end.

Definition is_number (v : value) : bool :=
  match v with VNum _ => true | _ => false end.


Definition valid_WeatherData (w : WeatherData.t) : bool :=
  is_string (WeatherData.condition w)
  && is_number (WeatherData.humidity w)
  && is_string (WeatherData.icon w)
  && is_number (WeatherData.pressure w)
  && is_number (fst (WeatherData.coordinates w))
  && is_number (snd (WeatherData.coordinates w)).




(** ** The network, the clock and the random source *)

(** What [fetch(url)] followed by [response.json()] can do. *)
Inductive fetch_result : Type :=
| NetworkFailure (e : exn)
    (* [fetch] rejects *)
| Response (ok : bool) (statusText : string) (json : result value).
    (* [fetch] resolves; [json] is what [response.json()] settles to *)

(** A request does not give a payload: the network fails, the status is not
    ok, or the body does not parse. *)
Definition fetch_fails (r : fetch_result) : bool :=
  match r with
  | NetworkFailure _ => true
  | Response ok _ json => negb ok || negb (is_ok json)
  end.

Record world : Type := mkWorld {
  now_read : Z;                    (* [Date.now()] in [isDataExpired] *)
  fetch : string -> fetch_result;  (* the answer to a GET of a URL *)
  now_write : Z;                   (* [Date.now()] when the entry is stored *)
  random : nat -> Q;               (* the k-th [Math.random()] of the call *)
  today : nat -> Z                 (* the i-th [new Date()] of the call *)
}.

(** [try { body } catch (error) { handler }]. *)
Definition try_catch {A} (body : result A) (handler : exn -> result A) : result A :=
  match body with
  | Ok a => Ok a
  | Throw e => handler e
  end.

Section Host.

(** What the host decides: how a string reads as a number
    ([StringToNumber]), the local time zone offset at an instant, and the
    locale's renderings of a date. *)
Variable StringToNumber : string -> num.
Variable LocalTZA : Z -> Z.
Variable toLocaleDateString : Date -> string.
Variable toLocaleTimeString : Date -> string.
  (* with the arguments ['en-US', { hour: 'numeric', hour12: false }] *)

(** [ToNumber]. *)
Definition ToNumber (v : value) : result num :=
  match v with
  | VUndef => Ok NaN
  | VNull => Ok (num_of_Z 0)
  | VBool b => Ok (num_of_Z (if b then 1 else 0))
  | VNum n => Ok n
  | VStr s => Ok (StringToNumber s)
  | VArr _ => s ← ToString v; Ok (StringToNumber s)
  | VObj l =>
      match own_prop "toString" l with
      | Some _ => Throw cannot_convert
      | None => Ok NaN
      end
  end.

(** [Math.round(v)], [Math.round(v * k)] and [v / k] on a payload value. *)
Definition round_value (v : value) : result num :=
  n ← ToNumber v; Ok (Math_round n).

Definition round_scaled (v : value) (k : Q) : result num :=
  n ← ToNumber v; Ok (Math_round (num_mul n (Fin k))).

Definition div_value (v : value) (k : Q) : result num :=
  n ← ToNumber v; Ok (num_div n (Fin k)).

(** [new Date(v * 1000)]. *)
Definition Date_of_seconds (v : value) : result Date :=
  n ← ToNumber v; Ok (new_Date (num_mul n (Fin 1000))).

(** [Date.prototype.getDay], in local time. *)
Definition getDay (d : Date) : num :=
  match d with
  | None => NaN
  | Some t => num_of_Z (WeekDay (t + LocalTZA t))
  end.

(** ** The cache *)

Record cache_entry : Type := mkEntry { data : value; timestamp : Z }.

Definition CACHE_DURATION : Z := 10 * 60 * 1000.

Definition getCacheKey (endpoint : string) (params : list (string * value)) : string :=
  endpoint +:+ "-" +:+ default "undefined" (JSON_stringify (VObj params)).

(** [isDataExpired]; [now] is the [Date.now()] it reads. *)
Definition isDataExpired (now timestamp : Z) : bool :=
  now - timestamp >? CACHE_DURATION.

(** The body of the [try] block of [fetchWithCache]: the request, the
    status check, the parse and the store.  The [catch] block logs and
    rethrows, so an exception leaves as it came. *)
Definition fetch_and_store (w : world) (c : gmap string cache_entry)
    (cacheKey endpoint : string) (params : list (string * value))
  : gmap string cache_entry * result value :=
  match URLSearchParams_toString params with
  | Throw e => (c, Throw e)
  | Ok queryString =>
      let url := "/api/" +:+ endpoint
                 +:+ (if String.eqb queryString "" then "" else "?" +:+ queryString) in
      match fetch w url with
      | NetworkFailure e => (c, Throw e)
      | Response ok statusText json =>
          if negb ok then (c, Throw (Error ("API request failed: " +:+ statusText)))
          else match json with
               | Throw e => (c, Throw e)
               | Ok d => (<[cacheKey := mkEntry d (now_write w)]> c, Ok d)
               end
      end
  end.

Definition fetchWithCache (w : world) (c : gmap string cache_entry)
    (endpoint : string) (params : list (string * value))
  : gmap string cache_entry * result value :=
  let cacheKey := getCacheKey endpoint params in
  match c !! cacheKey with
  | Some cached =>
      if negb (isDataExpired (now_read w) (timestamp cached))
      then (c, Ok (data cached))
      else fetch_and_store w c cacheKey endpoint params
  | None => fetch_and_store w c cacheKey endpoint params
  end.

Definition clearCache (c : gmap string cache_entry) : gmap string cache_entry := ∅.

Definition weather_params (lat lon : value) (type : string) : list (string * value) :=
  [("lat", lat); ("lon", lon); ("type", VStr type)].

(** ** Current weather *)

(** The object literal returned from the [try] block, field by field in
    source order. *)
Definition currentWeather_of (d : value) : result WeatherData.t :=
  name ← get_prop d "name";
  name_s ← ToString name;
  sys ← get_prop d "sys";
  country ← get_prop sys "country";
  country_s ← ToString country;
  main ← get_prop d "main";
  temp ← get_prop main "temp";
  temperature ← round_value temp;
  weather ← get_prop d "weather";
  weather0 ← get_index weather 0;
  description ← get_prop weather0 "description";
  humidity ← get_prop main "humidity";
  wind ← get_prop d "wind";
  speed ← get_prop wind "speed";
  windSpeed ← round_scaled speed 3.6;
  vis ← get_prop d "visibility";
  visibility ← div_value vis 1000;
  feels_like ← get_prop main "feels_like";
  feelsLike ← round_value feels_like;
  icon ← get_prop weather0 "icon";
  pressure ← get_prop main "pressure";
  coord ← get_prop d "coord";
  lat ← get_prop coord "lat";
  lon ← get_prop coord "lon";
  Ok (WeatherData.mk (name_s +:+ ", " +:+ country_s) temperature description
        humidity windSpeed visibility feelsLike icon pressure (lat, lon)).

Definition currentWeather_fallback (lat lon : value) : WeatherData.t :=
  WeatherData.mk "Unknown Location" (num_of_Z 20) (VStr "Unknown")
    (VNum (num_of_Z 50)) (num_of_Z 10) (num_of_Z 10) (num_of_Z 20) (VStr "01d")
    (VNum (num_of_Z 1013)) (lat, lon).

Definition getCurrentWeather (w : world) (c : gmap string cache_entry)
    (lat lon : value) : gmap string cache_entry * result WeatherData.t :=
  let '(c', r) := fetchWithCache w c "weather" (weather_params lat lon "current") in
  (c', try_catch (d ← r; currentWeather_of d)
         (fun _ => Ok (currentWeather_fallback lat lon))).

(** ** Hourly forecast *)

Definition hourly_of_item (item : value) : result HourlyForecast.t :=
  dt ← get_prop item "dt";
  date ← Date_of_seconds dt;
  main ← get_prop item "main";
  temp ← get_prop main "temp";
  temperature ← round_value temp;
  weather ← get_prop item "weather";
  weather0 ← get_index weather 0;
  description ← get_prop weather0 "description";
  humidity ← get_prop main "humidity";
  pop ← get_prop item "pop";
  precipitation ← round_scaled pop 100;
  wind ← get_prop item "wind";
  speed ← get_prop wind "speed";
  windSpeed ← round_scaled speed 3.6;
  icon ← get_prop weather0 "icon";
  Ok (HourlyForecast.mk (toLocaleTimeString date) temperature description humidity
        precipitation windSpeed icon).

(** [data.list.slice(0, 24).map(...)]. *)
Definition hourlyForecast_of (d : value) : result (list HourlyForecast.t) :=
  list ← get_prop d "list";
  sliced ← call_slice list 24;
  items ← map_receiver sliced;
  mapM_result (fun _ item => hourly_of_item item) 0 items.

Definition conditions : list string := ["Clear"; "Clouds"; "Rain"].

(** [Math.floor(Math.random() * k) + b]. *)
Definition random_int (r : Q) (k b : Z) : num :=
  num_add (Math_floor (num_mul (Fin r) (num_of_Z k))) (num_of_Z b).

(** The callback of [Array.from({ length: 24 }, ...)]; entry [i] makes the
    draws [5 i], ..., [5 i + 4] of the call. *)
Definition hourly_fallback_entry (w : world) (i : nat) : HourlyForecast.t :=
  let r := fun k => random w (5 * i + k)%nat in
  HourlyForecast.mk
    (if Nat.eqb i 0 then "Now" else Z_to_string (Z.of_nat i) +:+ ":00")
    (num_add (num_of_Z 18) (num_mul (Fin (r 0%nat)) (num_of_Z 12)))
    (index_strings conditions (Math_floor (num_mul (Fin (r 1%nat)) (num_of_Z 3))))
    (VNum (random_int (r 2%nat) 40 40))
    (random_int (r 3%nat) 100 0)
    (random_int (r 4%nat) 20 5)
    (VStr "01d").

Definition hourlyForecast_fallback (w : world) : list HourlyForecast.t :=
  map (hourly_fallback_entry w) (seq 0 24).

Definition getHourlyForecast (w : world) (c : gmap string cache_entry)
    (lat lon : value) : gmap string cache_entry * result (list HourlyForecast.t) :=
  let '(c', r) := fetchWithCache w c "weather" (weather_params lat lon "forecast") in
  (c', try_catch (d ← r; hourlyForecast_of d)
         (fun _ => Ok (hourlyForecast_fallback w))).

(** ** Daily forecast *)

(** [index === 0 ? 'Today' : days[date.getDay()]]. *)
Definition day_label (index : nat) (date : Date) : value :=
  if Nat.eqb index 0 then VStr "Today" else index_strings days (getDay date).

Definition daily_of_item (index : nat) (item : value) : result DailyForecast.t :=
  dt ← get_prop item "dt";
  date ← Date_of_seconds dt;
  temp ← get_prop item "temp";
  max ← get_prop temp "max";
  highTemp ← round_value max;
  min ← get_prop temp "min";
  lowTemp ← round_value min;
  weather ← get_prop item "weather";
  weather0 ← get_index weather 0;
  description ← get_prop weather0 "description";
  pop ← get_prop item "pop";
  precipitation ← round_scaled pop 100;
  humidity ← get_prop item "humidity";
  wind_speed ← get_prop item "wind_speed";
  windSpeed ← round_scaled wind_speed 3.6;
  icon ← get_prop weather0 "icon";
  uvi ← get_prop item "uvi";
  Ok (DailyForecast.mk (toLocaleDateString date) (day_label index date) highTemp
        lowTemp description precipitation humidity windSpeed icon uvi).

(** [data.daily.slice(0, 7).map(...)]. *)
Definition dailyForecast_of (d : value) : result (list DailyForecast.t) :=
  daily ← get_prop d "daily";
  sliced ← call_slice daily 7;
  items ← map_receiver sliced;
  mapM_result daily_of_item 0 items.

(** The callback of [Array.from({ length: 7 }, ...)]; entry [i] reads the
    clock once and makes the draws [6 i], ..., [6 i + 5]. *)
Definition daily_fallback_entry (w : world) (i : nat) : DailyForecast.t :=
  let r := fun k => random w (6 * i + k)%nat in
  let date := new_Date (num_of_Z (today w i + Z.of_nat i * 24 * 60 * 60 * 1000)) in
  DailyForecast.mk
    (toLocaleDateString date)
    (day_label i date)
    (num_add (num_of_Z 22) (num_mul (Fin (r 0%nat)) (num_of_Z 8)))
    (num_add (num_of_Z 12) (num_mul (Fin (r 1%nat)) (num_of_Z 8)))
    (index_strings conditions (Math_floor (num_mul (Fin (r 2%nat)) (num_of_Z 3))))
    (random_int (r 3%nat) 100 0)
    (VNum (random_int (r 4%nat) 30 50))
    (random_int (r 5%nat) 15 5)
    (VStr "01d")
    VUndef.

Definition dailyForecast_fallback (w : world) : list DailyForecast.t :=
  map (daily_fallback_entry w) (seq 0 7).

Definition getDailyForecast (w : world) (c : gmap string cache_entry)
    (lat lon : value) : gmap string cache_entry * result (list DailyForecast.t) :=
  let '(c', r) := fetchWithCache w c "weather" (weather_params lat lon "onecall") in
  (c', try_catch (d ← r; dailyForecast_of d)
         (fun _ => Ok (dailyForecast_fallback w))).

(** ** Alerts *)

(** The first [if]/[else if] chain of the callback: type and severity from
    the lower-cased event text. *)
Definition alert_type_of (event : string) : alert_type * Z :=
  if includes event "severe" || includes event "extreme" || includes event "warning"
  then (severe, 8)
  else if includes event "watch" || includes event "advisory"
  then (moderate, 6)
  else (minor, 3).

(** The second chain: the category, [other] unless a branch assigns it. *)
Definition alert_category_of (event : string) : alert_category :=
  if includes event "storm" || includes event "thunder" then storm
  else if includes event "rain" || includes event "flood" then rain
  else if includes event "wind" then wind
  else if includes event "snow" || includes event "winter" then snow
  else if includes event "temperature" || includes event "heat" || includes event "cold"
  then temperature
  else other.

Definition alert_of_item (index : nat) (alert : value) : result WeatherAlert.t :=
  ev ← get_prop alert "event";
  event ← call_toLowerCase ev;
  let '(type, severity) := alert_type_of event in
  let category := alert_category_of event in
  description ← get_prop alert "description";
  start ← get_prop alert "start";
  startDate ← Date_of_seconds start;
  startTime ← toISOString startDate;
  end_ ← get_prop alert "end";
  endDate ← Date_of_seconds end_;
  endTime ← toISOString endDate;
  Ok (WeatherAlert.mk ("alert-" +:+ Z_to_string (Z.of_nat index)) type category ev
        description "Current Area" severity startTime endTime true).

Definition weatherAlerts_of (d : value) : result (list WeatherAlert.t) :=
  alerts ← get_prop d "alerts";
  if negb (truthy alerts) then Ok []
  else items ← map_receiver alerts; mapM_result alert_of_item 0 items.

Definition getWeatherAlerts (w : world) (c : gmap string cache_entry)
    (lat lon : value) : gmap string cache_entry * result (list WeatherAlert.t) :=
  let '(c', r) := fetchWithCache w c "weather" (weather_params lat lon "onecall") in
  (c', try_catch (d ← r; weatherAlerts_of d) (fun _ => Ok [])).

(** ** Search by city name *)

Definition uri_component_byte (ch : ascii) : string :=
  let n := N_of_ascii ch in
  if ((48 <=? n) && (n <=? 57) || (65 <=? n) && (n <=? 90) || (97 <=? n) && (n <=? 122)
      || (n =? 45) || (n =? 95) || (n =? 46) || (n =? 33) || (n =? 126) || (n =? 42)
      || (n =? 39) || (n =? 40) || (n =? 41))%N
  then String ch EmptyString
  else String "%" (String (hex_upper (n / 16)) (String (hex_upper (n mod 16)) EmptyString)).

Fixpoint encodeURIComponent (s : string) : string :=
  match s with
  | EmptyString => EmptyString
  | String ch r => uri_component_byte ch +:+ encodeURIComponent r
  end.

Definition geocodingUrl (key : option string) (cityName : string) : string :=
  "https://api.openweathermap.org/geo/1.0/direct?q=" +:+ encodeURIComponent cityName
    +:+ "&limit=1&appid=" +:+ default "undefined" key.

Definition city_not_found (cityName : string) : exn :=
  Error ("City " +:+ String dquote cityName +:+ String dquote " not found").

(** [v === 0]. *)
Definition is_zero (v : value) : bool :=
  match v with
  | VNum (Fin q) => Qeq_bool q 0
  | _ => false
  end.

(** [const { lat, lon, name, country } = v]. *)
Definition destructure_geocoding (v : value) : result (value * value * value * value) :=
  lat ← get_prop v "lat";
  lon ← get_prop v "lon";
  name ← get_prop v "name";
  country ← get_prop v "country";
  Ok (lat, lon, name, country).

(** The [try] block of [getWeatherByCity]; [key] is
    [process.env.OPENWEATHER_API_KEY] as the caller's bundle sees it. *)
Definition getWeatherByCity_try (key : option string) (w : world)
    (c : gmap string cache_entry) (cityName : string)
  : gmap string cache_entry * result (WeatherData.t * (value * value)) :=
  match fetch w (geocodingUrl key cityName) with
  | NetworkFailure e => (c, Throw e)
  | Response ok statusText json =>
      if negb ok then (c, Throw (Error ("Failed to geocode city: " +:+ statusText)))
      else
        match json with
        | Throw e => (c, Throw e)
        | Ok geocodingData =>
            match (missing ← (if negb (truthy geocodingData) then Ok true
                              else len ← get_prop geocodingData "length";
                                   Ok (is_zero len));
                   if (missing : bool) then Throw (city_not_found cityName)
                   else g0 ← get_index geocodingData 0; destructure_geocoding g0) with
            | Throw e => (c, Throw e)
            | Ok (lat, lon, name, country) =>
                match getCurrentWeather w c lat lon with
                | (c', Throw e) => (c', Throw e)
                | (c', Ok weather) =>
                    (c', name_s ← ToString name;
                         country_s ← ToString country;
                         Ok (WeatherData.mk (name_s +:+ ", " +:+ country_s)
                               (WeatherData.temperature weather)
                               (WeatherData.condition weather)
                               (WeatherData.humidity weather)
                               (WeatherData.windSpeed weather)
                               (WeatherData.visibility weather)
                               (WeatherData.feelsLike weather)
                               (WeatherData.icon weather)
                               (WeatherData.pressure weather)
                               (WeatherData.coordinates weather),
                             (lat, lon)))
                end
            end
        end
  end.

(** The [catch] block wraps whatever was thrown. *)
Definition getWeatherByCity (key : option string) (w : world)
    (c : gmap string cache_entry) (cityName : string)
  : gmap string cache_entry * result (WeatherData.t * (value * value)) :=
  let '(c', r) := getWeatherByCity_try key w c cityName in
  (c', try_catch r (fun error =>
         Throw (Error ("Failed to get weather for " +:+ cityName +:+ ": "
                       +:+ message error)))).

End Host.

(** ** The proxy route ([GET /api/weather]) *)

Module Route.

Record response : Type := mkResponse {
  status : Z;
  body : value;
  headers : list (string * string)
}.

Definition OPENWEATHER_BASE_URL : string := "https://api.openweathermap.org/data/3.0".

(** [NextResponse.json({ error: msg }, { status })]. *)
Definition error_response (msg : string) (status : Z) : response :=
  mkResponse status (VObj [("error", VStr msg)]) [].

Definition cors_headers : list (string * string) :=
  [("Access-Control-Allow-Origin", "*");
   ("Access-Control-Allow-Methods", "GET, POST, PUT, DELETE, OPTIONS");
   ("Access-Control-Allow-Headers", "Content-Type, Authorization")].

(** [searchParams.get(name)]: the first value of the name, or [null]. *)
Fixpoint searchParams_get (name : string) (query : list (string * string)) : option string :=
  match query with
  | [] => None
  | (k, v) :: r => if String.eqb k name then Some v else searchParams_get name r
  end.

(** Truthiness of a string or [null]/[undefined]. *)
Definition present (o : option string) : bool :=
  match o with
  | Some s => negb (String.eqb s "")
  | None => false
  end.

Definition invalid_type_message : string :=
  "Invalid type parameter. Use " +:+ String dquote "current"
    +:+ String dquote ", " +:+ String dquote "forecast"
    +:+ String dquote ", or " +:+ String dquote "onecall"
    +:+ String dquote EmptyString.

(** [searchParams.get('type') || 'current']. *)
Definition requested_type (query : list (string * string)) : string :=
  if present (searchParams_get "type" query)
  then default "" (searchParams_get "type" query) else "current".

(** One [case] of the [switch]: the upstream request, the status check and
    the parse. *)
Definition upstream (fetch : string -> fetch_result) (url : string) : result value :=
  match fetch url with
  | NetworkFailure e => Throw e
  | Response ok statusText json =>
      if negb ok then Throw (Error ("OpenWeatherMap API error: " +:+ statusText))
      else json
  end.

Definition upstream_url (path lat lon key suffix : string) : string :=
  OPENWEATHER_BASE_URL +:+ path +:+ "?lat=" +:+ lat +:+ "&lon=" +:+ lon
    +:+ "&appid=" +:+ key +:+ "&units=metric" +:+ suffix.

(** The [try] block of [GET]; [key] is the module constant
    [OPENWEATHER_API_KEY] and [query] the request's query string. *)
Definition GET_try (key : option string) (fetch : string -> fetch_result)
    (query : list (string * string)) : result response :=
  let lat := searchParams_get "lat" query in
  let lon := searchParams_get "lon" query in
  let type := requested_type query in
  if negb (present lat) || negb (present lon)
  then Ok (error_response "Latitude and longitude are required" 400)
  else if negb (present key)
  then Ok (error_response "OpenWeatherMap API key is not configured" 500)
  else
    let lat := default "" lat in
    let lon := default "" lon in
    let key := default "" key in
    if String.eqb type "current" then
      d ← upstream fetch (upstream_url "/weather" lat lon key "");
      Ok (mkResponse 200 d cors_headers)
    else if String.eqb type "forecast" then
      d ← upstream fetch (upstream_url "/forecast" lat lon key "");
      Ok (mkResponse 200 d cors_headers)
    else if String.eqb type "onecall" then
      d ← upstream fetch (upstream_url "/onecall" lat lon key "&exclude=minutely");
      Ok (mkResponse 200 d cors_headers)
    else Ok (error_response invalid_type_message 400).

Definition GET (key : option string) (fetch : string -> fetch_result)
    (query : list (string * string)) : result response :=
  try_catch (GET_try key fetch query)
    (fun _ => Ok (error_response "Failed to fetch weather data" 500)).

End Route.

(** ** The search handler of the dashboard page *)

Module Page.

(** What a pending [setTimeout] will run. *)
Inductive timer_callback : Type :=
| ClearSearchError.          (* [() => { setSearchError(null) }] *)

(** The component state [handleSearch] reads or writes, the cache of the
    service singleton, and the timers it has scheduled (delay in
    milliseconds, callback). *)
Record state : Type := mkState {
  weather : option WeatherData.t;
  hourlyForecast : list HourlyForecast.t;
  dailyForecast : list DailyForecast.t;
  alerts : list WeatherAlert.t;
  loading : bool;
  searchQuery : string;
  userLocation : option (value * value * string);
  searchError : option string;
  timers : list (Z * timer_callback);
  cache : gmap string cache_entry
}.

Definition setWeather (x : option WeatherData.t) (s : state) : state :=
  mkState x (hourlyForecast s) (dailyForecast s) (alerts s) (loading s) (searchQuery s)
    (userLocation s) (searchError s) (timers s) (cache s).
Definition setHourlyForecast (x : list HourlyForecast.t) (s : state) : state :=
  mkState (weather s) x (dailyForecast s) (alerts s) (loading s) (searchQuery s)
    (userLocation s) (searchError s) (timers s) (cache s).
Definition setDailyForecast (x : list DailyForecast.t) (s : state) : state :=
  mkState (weather s) (hourlyForecast s) x (alerts s) (loading s) (searchQuery s)
    (userLocation s) (searchError s) (timers s) (cache s).
Definition setAlerts (x : list WeatherAlert.t) (s : state) : state :=
  mkState (weather s) (hourlyForecast s) (dailyForecast s) x (loading s) (searchQuery s)
    (userLocation s) (searchError s) (timers s) (cache s).
Definition setLoading (x : bool) (s : state) : state :=
  mkState (weather s) (hourlyForecast s) (dailyForecast s) (alerts s) x (searchQuery s)
    (userLocation s) (searchError s) (timers s) (cache s).
Definition setSearchQuery (x : string) (s : state) : state :=
  mkState (weather s) (hourlyForecast s) (dailyForecast s) (alerts s) (loading s) x
    (userLocation s) (searchError s) (timers s) (cache s).
Definition setUserLocation (x : option (value * value * string)) (s : state) : state :=
  mkState (weather s) (hourlyForecast s) (dailyForecast s) (alerts s) (loading s)
    (searchQuery s) x (searchError s) (timers s) (cache s).
Definition setSearchError (x : option string) (s : state) : state :=
  mkState (weather s) (hourlyForecast s) (dailyForecast s) (alerts s) (loading s)
    (searchQuery s) (userLocation s) x (timers s) (cache s).
Definition setTimeout (cb : timer_callback) (delay : Z) (s : state) : state :=
  mkState (weather s) (hourlyForecast s) (dailyForecast s) (alerts s) (loading s)
    (searchQuery s) (userLocation s) (searchError s) (timers s ++ [(delay, cb)]) (cache s).
Definition with_cache (c : gmap string cache_entry) (s : state) : state :=
  mkState (weather s) (hourlyForecast s) (dailyForecast s) (alerts s) (loading s)
    (searchQuery s) (userLocation s) (searchError s) (timers s) c.

Definition run_callback (cb : timer_callback) (s : state) : state :=
  match cb with
  | ClearSearchError => setSearchError None s
  end.

(** Let [dt] milliseconds pass: the timers that are due run in the order
    they were scheduled, the others come closer. *)
Definition elapse (dt : Z) (s : state) : state :=
  let due := List.filter (fun t => fst t <=? dt) (timers s) in
  let later := map (fun t => (fst t - dt, snd t))
                 (List.filter (fun t => dt <? fst t) (timers s)) in
  fold_left (fun s t => run_callback (snd t) s) due
    (mkState (weather s) (hourlyForecast s) (dailyForecast s) (alerts s) (loading s)
       (searchQuery s) (userLocation s) (searchError s) later (cache s)).

Definition is_whitespace (c : ascii) : bool :=
  let n := N_of_ascii c in
  ((9 <=? n) && (n <=? 13) || (n =? 32) || (n =? 160))%N.

Fixpoint trim_start (s : string) : string :=
  match s with
  | EmptyString => EmptyString
  | String c r => if is_whitespace c then trim_start r else s
  end.

Fixpoint trim_end (s : string) : string :=
  match s with
  | EmptyString => EmptyString
  | String c r =>
      let r' := trim_end r in
      if is_whitespace c && String.eqb r' "" then EmptyString else String c r'
  end.

(** [String.prototype.trim]. *)
Definition trim (s : string) : string := trim_end (trim_start s).

Section Handler.

Variable StringToNumber : string -> num.
Variable LocalTZA : Z -> Z.
Variable toLocaleDateString : Date -> string.
Variable toLocaleTimeString : Date -> string.

(** The [catch] block of [handleSearch]. *)
Definition search_failed (error : exn) (s : state) : state :=
  setTimeout ClearSearchError 3000 (setSearchError (Some (message error)) s).

(** [handleSearch]; [key] is the API key as the browser bundle sees it,
    [w0] answers the city lookup and [w1], [w2], [w3] the three forecast
    calls that follow it.  The three calls of the [Promise.all] are run one
    after the other, each on the cache the previous one left. *)
Definition handleSearch (key : option string) (w0 w1 w2 w3 : world) (s : state) : state :=
  if String.eqb (trim (searchQuery s)) "" then s
  else
    let s := setSearchError None (setLoading true s) in
    let '(c0, r) := getWeatherByCity StringToNumber key w0 (cache s) (searchQuery s) in
    let s := with_cache c0 s in
    let s :=
      match r with
      | Throw error => search_failed error s
      | Ok (result_weather, (lat, lon)) =>
          let s := setWeather (Some result_weather) s in
          let s := setUserLocation
                     (Some (lat, lon, WeatherData.location result_weather)) s in
          let '(c1, hourly) :=
            getHourlyForecast StringToNumber toLocaleTimeString w1 (cache s) lat lon in
          let '(c2, daily) :=
            getDailyForecast StringToNumber LocalTZA toLocaleDateString w2 c1 lat lon in
          let '(c3, weatherAlerts) := getWeatherAlerts StringToNumber w3 c2 lat lon in
          let s := with_cache c3 s in
          match hourly, daily, weatherAlerts with
          | Ok hourly, Ok daily, Ok weatherAlerts =>
              setSearchQuery ""
                (setAlerts weatherAlerts
                   (setDailyForecast daily (setHourlyForecast hourly s)))
          | Throw error, _, _ | _, Throw error, _ | _, _, Throw error =>
              search_failed error s
          end
      end in
    setLoading false s.

End Handler.

End Page.

(** ** A reference host and sample payloads

    Concrete runs below use a host in UTC that reads digit strings as
    numbers, renders a date as its ISO day and a time as its two-digit
    hour. *)

Module Sample.

Fixpoint digits_value (s : string) (acc : Z) : option Z :=
  match s with
  | EmptyString => Some acc
  | String c r =>
      let n := N_of_ascii c in
      if ((48 <=? n) && (n <=? 57))%N then digits_value r (10 * acc + Z.of_N (n - 48))
      else None
  end.

Definition StringToNumber (s : string) : num :=
  match digits_value s 0 with
  | Some z => num_of_Z z
  | None => NaN
  end.

Definition LocalTZA (t : Z) : Z := 0.

Definition toLocaleDateString (d : Date) : string :=
  match toISOString d with
  | Ok s => String.substring 0 10 s
  | Throw _ => "Invalid Date"
  end.

Definition toLocaleTimeString (d : Date) : string :=
  match d with
  | Some t => pad 2 (t mod msPerDay / 3600000)
  | None => "Invalid Date"
  end.

Definition num_field (k : string) (q : Q) : string * value := (k, VNum (Fin q)).
Definition str_field (k s : string) : string * value := (k, VStr s).

Definition lat : value := VNum (Fin 37.7749).
Definition lon : value := VNum (Fin (-122.4194)).

(** A current-weather payload with a wind of 10 m/s and 8000 m of
    visibility. *)
Definition current_payload : value :=
  VObj [("coord", VObj [num_field "lon" (-122.4194); num_field "lat" 37.7749]);
        ("weather", VArr [VObj [num_field "id" 800; str_field "main" "Clear";
                                str_field "description" "clear sky";
                                str_field "icon" "01d"]]);
        ("main", VObj [num_field "temp" 17.6; num_field "feels_like" 16.4;
                       num_field "pressure" 1016; num_field "humidity" 62]);
        num_field "visibility" 8000;
        ("wind", VObj [num_field "speed" 10; num_field "deg" 270]);
        ("sys", VObj [str_field "country" "US"]);
        str_field "name" "San Francisco"].


Definition daily_item (dt : Q) : value :=
  VObj [num_field "dt" dt;
        ("temp", VObj [num_field "min" 11.2; num_field "max" 19.5]);
        ("weather", VArr [VObj [str_field "description" "few clouds";
                                str_field "icon" "02d"]]);
        num_field "pop" 0.25; num_field "humidity" 70; num_field "wind_speed" 4.5;
        num_field "uvi" 5.1].

Definition alert_item (event : string) : value :=
  VObj [str_field "sender_name" "NWS"; str_field "event" event;
        num_field "start" 1700000000; num_field "end" 1700003600;
        str_field "description" "Take shelter."].

(** A one-call payload: nine days from Tuesday 14 November 2023, and the
    three alerts of the specification. *)
Definition onecall_payload : value :=
  VObj [("daily", VArr (map (fun i => daily_item (inject_Z (1700000000 + 86400 * i)))
                          [0; 1; 2; 3; 4; 5; 6; 7; 8]));
        ("alerts", VArr [alert_item "Severe Thunderstorm Warning";
                         alert_item "Heavy Rain Advisory";
                         alert_item "Wind Advisory"])].

(** A network that answers every request with [r], at time [t]. *)
Definition world_with (r : fetch_result) (t : Z) : world :=
  mkWorld t (fun _ => r) t (fun _ => 1 # 2) (fun _ => t).

Definition ok_with (d : value) : fetch_result := Response true "OK" (Ok d).

Definition outage : fetch_result := Response false "Service Unavailable" (Ok VNull).

(** The answer of the geocoding service for a name it does not know. *)
Definition no_city : fetch_result := Response true "OK" (Ok (VArr [])).

(** A page showing San Francisco, with [Atlantis] typed in the search box. *)
Definition page : Page.state :=
  Page.mkState
    (Some (WeatherData.mk "San Francisco, US" (num_of_Z 18) (VStr "clear sky")
             (VNum (num_of_Z 62)) (num_of_Z 36) (num_of_Z 8) (num_of_Z 16) (VStr "01d")
             (VNum (num_of_Z 1016)) (lat, lon)))
    [] [] [] false "Atlantis" (Some (lat, lon, "San Francisco, US")) None [] ∅.

End Sample.

(** ** The classification rules, as the specification words them

    An ordered list of rules, each a set of keywords with a result; the
    first rule one of whose keywords occurs in the text wins, and a default
    applies when none does. *)

Definition first_match {A} (rules : list (list string * A)) (otherwise : A)
    (text : string) : A :=
  match List.find (fun rule => existsb (includes text) (fst rule)) rules with
  | Some rule => snd rule
  | None => otherwise
  end.

Definition category_rules : list (list string * alert_category) :=
  [(["storm"; "thunder"], storm);
   (["rain"; "flood"], rain);
   (["wind"], wind);
   (["snow"; "winter"], snow);
   (["temperature"; "heat"; "cold"], temperature)].

Definition type_rules : list (list string * (alert_type * Z)) :=
  [(["severe"; "extreme"; "warning"], (severe, 8));
   (["watch"; "advisory"], (moderate, 6))].

Definition severity_score (t : alert_type) : Z :=
  match t with
  | severe => 8
  | moderate => 6
  | minor => 3
  end.

(** ** Reading a serialised object back

    The members [JSON.stringify] writes for an object, the name of the first
    of them, and the inverse of [json_escape] on the head of a string. *)

Fixpoint object_members (l : list (string * value)) : list string :=
  match l with
  | [] => []
  | (k, x) :: r =>
      match JSON_stringify x with
      | Some s => (json_quote k +:+ ":" +:+ s) :: object_members r
      | None => object_members r
      end
  end.

Fixpoint first_serialised_name (l : list (string * value)) : option string :=
  match l with
  | [] => None
  | (k, x) :: r =>
      match JSON_stringify x with
      | Some _ => Some k
      | None => first_serialised_name r
      end
  end.

Definition hex_value (c : ascii) : N :=
  let n := N_of_ascii c in
  if (n <? 58)%N then (n - 48)%N else (n - 87)%N.

Definition unescape_head (s : string) : option (ascii * string) :=
  match s with
  | EmptyString => None
  | String a t =>
      if Ascii.eqb a dquote then None
      else if Ascii.eqb a backslash then
        match t with
        | String b t' =>
            if Ascii.eqb b "u" then
              match t' with
              | String _ (String _ (String h (String l t''))) =>
                  Some (ascii_of_N (16 * hex_value h + hex_value l), t'')
              | _ => None
              end
            else if Ascii.eqb b "b" then Some (ascii_of_N 8, t')
            else if Ascii.eqb b "f" then Some (ascii_of_N 12, t')
            else if Ascii.eqb b "n" then Some (ascii_of_N 10, t')
            else if Ascii.eqb b "r" then Some (ascii_of_N 13, t')
            else if Ascii.eqb b "t" then Some (ascii_of_N 9, t')
            else Some (b, t')
        | EmptyString => None
        end
      else Some (a, t)
  end.

(** The cache holds nothing a read at the time of [w] would serve. *)
Definition no_fresh_entry (w : world) (c : gmap string cache_entry) : Prop :=
  forall key entry, c !! key = Some entry ->
                    isDataExpired (now_read w) (timestamp entry) = true.

(** The four view models the page displays. *)
Definition displayed (s : Page.state)
  : option WeatherData.t * list HourlyForecast.t * list DailyForecast.t
    * list WeatherAlert.t :=
  (Page.weather s, Page.hourlyForecast s, Page.dailyForecast s, Page.alerts s).

(** The message of the error [getWeatherByCity] throws when the lookup finds
    no city. *)
Definition not_found_message (cityName : string) : string :=
  "Failed to get weather for " +:+ cityName +:+ ": "
    +:+ message (city_not_found cityName).

(** ** Runs of the service

    The calls a client can make on the service singleton; a run is a list
    of calls, each with the world that answers it. *)

Inductive op : Type :=
| CallCurrentWeather (lat lon : value)
| CallHourlyForecast (lat lon : value)
| CallDailyForecast (lat lon : value)
| CallWeatherAlerts (lat lon : value)
| CallWeatherByCity (key : option string) (cityName : string)
| CallClearCache.

Section Runs.

Variable StringToNumber : string -> num.
Variable LocalTZA : Z -> Z.
Variable toLocaleDateString : Date -> string.
Variable toLocaleTimeString : Date -> string.

(** The cache after one call. *)
Definition run_op (w : world) (o : op) (c : gmap string cache_entry)
  : gmap string cache_entry :=
  match o with
  | CallCurrentWeather lat lon => fst (getCurrentWeather StringToNumber w c lat lon)
  | CallHourlyForecast lat lon =>
      fst (getHourlyForecast StringToNumber toLocaleTimeString w c lat lon)
  | CallDailyForecast lat lon =>
      fst (getDailyForecast StringToNumber LocalTZA toLocaleDateString w c lat lon)
  | CallWeatherAlerts lat lon => fst (getWeatherAlerts StringToNumber w c lat lon)
  | CallWeatherByCity key cityName =>
      fst (getWeatherByCity StringToNumber key w c cityName)
  | CallClearCache => clearCache c
  end.

Definition run_ops (trace : list (world * op)) (c : gmap string cache_entry)
  : gmap string cache_entry :=
  fold_left (fun c step => run_op (fst step) (snd step) c) trace c.

End Runs.

(** [d] is the body of a successful response one of the worlds gave. *)
Definition upstream_payload (ws : list world) (d : value) : Prop :=
  exists w url statusText,
    w ∈ ws /\ fetch w url = Response true statusText (Ok d).

(** Every entry of the cache holds such a body. *)
Definition from_upstream (ws : list world) (c : gmap string cache_entry) : Prop :=
  forall key entry, c !! key = Some entry -> upstream_payload ws (data entry).

(** ** Payloads that conform to the provider's schema

    The fields [getCurrentWeather] reads, with the types the route's
    [WeatherResponse] interface declares for them. *)

Definition is_finite (v : value) : bool :=
  match v with VNum (Fin _) => true | _ => false end.

Definition is_fin (n : num) : bool :=
  match n with Fin _ => true | NaN => false end.

(** The property [k] of [v] can be read and passes [test]. *)
Definition prop_is (test : value -> bool) (v : value) (k : string) : bool :=
  match get_prop v k with
  | Ok x => test x
  | Throw _ => false
  end.

Definition conforms_WeatherResponse (d : value) : bool :=
  prop_is is_string d "name"
  && prop_is (fun sys => prop_is is_string sys "country") d "sys"
  && prop_is (fun main => prop_is is_finite main "temp"
                          && prop_is is_finite main "feels_like"
                          && prop_is is_finite main "pressure"
                          && prop_is is_finite main "humidity") d "main"
  && prop_is (fun weather =>
                match get_index weather 0 with
                | Ok weather0 => prop_is is_string weather0 "description"
                                 && prop_is is_string weather0 "icon"
                | Throw _ => false
                end) d "weather"
  && prop_is (fun wind => prop_is is_finite wind "speed") d "wind"
  && prop_is is_finite d "visibility"
  && prop_is (fun coord => prop_is is_finite coord "lat"
                           && prop_is is_finite coord "lon") d "coord".

(** A view model with every field of its declared type and no [NaN]. *)
Definition complete_WeatherData (v : WeatherData.t) : bool :=
  valid_WeatherData v
  && is_fin (WeatherData.temperature v)
  && is_fin (WeatherData.windSpeed v)
  && is_fin (WeatherData.visibility v)
  && is_fin (WeatherData.feelsLike v).


(** ** The rest of the service: cache status and device position *)

Module CacheStatus.
Record t : Type := mk { entries : nat; size : nat }.
End CacheStatus.

(** One value of the cache map, as [JSON.stringify] sees it. *)
Definition entry_value (e : cache_entry) : value :=
  VObj [("data", data e); ("timestamp", VNum (num_of_Z (timestamp e)))].

(** The text [JSON.stringify] writes for an array of values. *)
Definition array_text (l : list value) : string :=
  default "undefined" (JSON_stringify (VArr l)).

(** [getCacheStatus]: the number of entries and the length of the JSON text
    of the values.  The values are listed in the order of the finite map,
    not in insertion order; the length of the text is the same for every
    order. *)
Definition getCacheStatus (c : gmap string cache_entry) : CacheStatus.t :=
  CacheStatus.mk (base.size c)
    (String.length (array_text (map (fun kv => entry_value (snd kv)) (map_to_list c)))).

(** What the browser's geolocation does with the request. *)
Inductive geolocation : Type :=
| GeolocationUnsupported                         (* no [navigator.geolocation] *)
| GeolocationError (msg : string)                (* the error callback runs *)
| GeolocationPosition (latitude longitude : num). (* the success callback runs *)

(** [getCurrentPosition]. *)
Definition getCurrentPosition (g : geolocation) : result (num * num) :=
  match g with
  | GeolocationUnsupported =>
      Throw (Error "Geolocation is not supported by this browser")
  | GeolocationError msg => Throw (Error ("Geolocation error: " +:+ msg))
  | GeolocationPosition latitude longitude => Ok (latitude, longitude)
  end.

(** ** The rest of the route: [OPTIONS] *)

(** [new NextResponse(null, { status: 200 })] with the three headers. *)
Definition OPTIONS : Route.response :=
  Route.mkResponse 200 VNull Route.cors_headers.

(** ** The rest of the page: temperature units and the first load *)



Definition default_lat : value := VNum (Fin 37.7749).
Definition default_lon : value := VNum (Fin (-122.4194)).

(** The placeholder of the outer [catch] block of [fetchWeatherData]. *)
Definition load_failed_weather : WeatherData.t :=
  WeatherData.mk "Unknown Location" (num_of_Z 20) (VStr "Unknown")
    (VNum (num_of_Z 50)) (num_of_Z 10) (num_of_Z 10) (num_of_Z 20) (VStr "01d")
    (VNum (num_of_Z 1013)) (VNum (num_of_Z 0), VNum (num_of_Z 0)).

Section Load.

Variable StringToNumber : string -> num.
Variable LocalTZA : Z -> Z.
Variable toLocaleDateString : Date -> string.
Variable toLocaleTimeString : Date -> string.

(** The coordinates [fetchWeatherData] goes on with, and the state after
    the inner [try]/[catch]: the arguments when both are truthy, else the
    device position, else San Francisco. *)
Definition choose_coordinates (g : geolocation) (lat lon : value) (s : Page.state)
  : (value * value) * Page.state :=
  if negb (truthy lat) || negb (truthy lon) then
    match getCurrentPosition g with
    | Ok (plat, plon) =>
        ((VNum plat, VNum plon),
         Page.setUserLocation (Some (VNum plat, VNum plon, "Current Location")) s)
    | Throw _ =>
        ((default_lat, default_lon),
         Page.setUserLocation (Some (default_lat, default_lon, "San Francisco, CA")) s)
    end
  else ((lat, lon), s).

(** [fetchWeatherData]; [s] is the state of the render the function closes
    over, so the [userLocation] it tests at the end is the one of [s].  The
    four calls of the [Promise.all] are run one after the other, answered by
    [w1] to [w4]. *)
Definition fetchWeatherData (g : geolocation) (w1 w2 w3 w4 : world)
    (lat lon : value) (s : Page.state) : Page.state :=
  let captured := s in
  let s := Page.setLoading true s in
  let '((clat, clon), s) := choose_coordinates g lat lon s in
  let '(c1, currentWeather) :=
    getCurrentWeather StringToNumber w1 (Page.cache s) clat clon in
  let '(c2, hourly) :=
    getHourlyForecast StringToNumber toLocaleTimeString w2 c1 clat clon in
  let '(c3, daily) :=
    getDailyForecast StringToNumber LocalTZA toLocaleDateString w3 c2 clat clon in
  let '(c4, weatherAlerts) := getWeatherAlerts StringToNumber w4 c3 clat clon in
  let s := Page.with_cache c4 s in
  let s :=
    match currentWeather, hourly, daily, weatherAlerts with
    | Ok currentWeather, Ok hourly, Ok daily, Ok weatherAlerts =>
        let s := Page.setAlerts weatherAlerts
                   (Page.setDailyForecast daily
                      (Page.setHourlyForecast hourly
                         (Page.setWeather (Some currentWeather) s))) in
        match Page.userLocation captured with
        | None =>
            Page.setUserLocation
              (Some (clat, clon, WeatherData.location currentWeather)) s
        | Some _ => s
        end
    | _, _, _, _ => Page.setWeather (Some load_failed_weather) s
    end in
  Page.setLoading false s.

End Load.

(** Every character of the string is white space. *)
Fixpoint all_whitespace (s : string) : bool :=
  match s with
  | EmptyString => true
  | String c r => Page.is_whitespace c && all_whitespace r
  end.

(** ** The alerts component ([WeatherAlerts.tsx]) *)

Module LocationAlert.
Record t : Type := mk {
  id : string;
  location : value;
  lat : value;
  lng : value;
  alertTypes : list string;
  enabled : bool
}.
End LocationAlert.


(** The updater of [toggleLocationAlert]. *)
Definition toggleLocationAlert (alertId : string) (prev : list LocationAlert.t)
  : list LocationAlert.t :=
  map (fun alert =>
         if String.eqb (LocationAlert.id alert) alertId
         then LocationAlert.mk (LocationAlert.id alert) (LocationAlert.location alert)
                (LocationAlert.lat alert) (LocationAlert.lng alert)
                (LocationAlert.alertTypes alert) (negb (LocationAlert.enabled alert))
         else alert) prev.

(** A property read on a truthy value, where the read cannot throw. *)
Definition read_prop (v : value) (k : string) : value :=
  match get_prop v k with
  | Ok x => x
  | Throw _ => VUndef
  end.

(** [addLocationAlert]; [userLocation] is the component's prop and [now]
    the [Date.now()] it reads. *)
Definition addLocationAlert (userLocation : value) (now : Z)
    (prev : list LocationAlert.t) : list LocationAlert.t :=
  if truthy userLocation then
    prev ++ [LocationAlert.mk (Z_to_string now) (read_prop userLocation "city")
               (read_prop userLocation "lat") (read_prop userLocation "lng")
               ["severe"] true]
  else prev.

(** The object the page passes as the [userLocation] prop: its state, with
    the fields [lat], [lon] and [city]. *)
Definition userLocation_prop (u : option (value * value * string)) : value :=
  match u with
  | Some (lat, lon, city) => VObj [("lat", lat); ("lon", lon); ("city", VStr city)]
  | None => VNull
  end.

(** [Number.prototype.toFixed(2)] on the rational model, for magnitudes
    below 1e21: the nearest hundredth, ties away from zero. *)
Definition toFixed2 (n : num) : string :=
  match n with
  | NaN => "NaN"
  | Fin q =>
      let m := Qfloor (Qabs q * 100 + (1 # 2)) in
      (if Qnum q <? 0 then "-" else "")
        +:+ Z_to_string (m / 100) +:+ "." +:+ pad 2 (m mod 100)
  end.

(** [v.toFixed(2)]: only a number has the method. *)
Definition call_toFixed2 (v : value) : result string :=
  match v with
  | VNum n => Ok (toFixed2 n)
  | VUndef => Throw (cannot_read "undefined" "toFixed")
  | VNull => Throw (cannot_read "null" "toFixed")
  | _ => Throw (not_a_function "toFixed")
  end.

(** The coordinates line of a location alert:
    [{locationAlert.lat.toFixed(2)}, {locationAlert.lng.toFixed(2)}]. *)
Definition coordinates_label (a : LocationAlert.t) : result string :=
  lat_s ← call_toFixed2 (LocationAlert.lat a);
  lng_s ← call_toFixed2 (LocationAlert.lng a);
  Ok (lat_s +:+ ", " +:+ lng_s).

(** * Properties *)

Local Open Scope string_scope.
Local Open Scope Z_scope.
#[local] Arguments String.append : simpl nomatch.

(** ** The cache: expiry *)

Lemma isDataExpired_spec now timestamp :
  isDataExpired now timestamp = true <-> now - timestamp > 600000.
Proof.
  unfold isDataExpired, CACHE_DURATION. rewrite Z.gtb_ltb, Z.ltb_lt. lia.
Qed.

(** The answer of a refetch does not depend on what the cache holds. *)
Lemma fetch_and_store_result w c c' key e p :
  snd (fetch_and_store w c key e p) = snd (fetch_and_store w c' key e p).
Proof.
  unfold fetch_and_store.
  destruct (URLSearchParams_toString p) as [qs|]; [|reflexivity].
  destruct (fetch w _) as [|ok st [d|]]; try reflexivity;
    destruct ok; reflexivity.
Qed.

(** A refetch that succeeds stamps the payload with the time of the write. *)
Lemma fetch_and_store_writes w c key e p c' d :
  fetch_and_store w c key e p = (c', Ok d) ->
  c' = <[key := mkEntry d (now_write w)]> c.
Proof.
  unfold fetch_and_store.
  destruct (URLSearchParams_toString p) as [qs|]; [|discriminate].
  destruct (fetch w _) as [|ok st [d'|]]; try discriminate;
    destruct ok; simpl; congruence.
Qed.

(** C2.  An entry written at time [T] under the key of [(endpoint, params)]
    and read at time [T' = now_read w]: when [T' - T <= 600000] the read
    returns the stored payload and leaves the cache as it is; when
    [T' - T > 600000] the read refetches, and its answer is the one a cache
    without the entry gives, so the expired payload is not what is
    returned. *)
Theorem fetchWithCache_expiry (w : world) (c : gmap string cache_entry)
    (endpoint : string) (params : list (string * value)) (d : value) (T : Z) :
  c !! getCacheKey endpoint params = Some (mkEntry d T) ->
  (now_read w - T <= 600000 -> fetchWithCache w c endpoint params = (c, Ok d))
  /\ (now_read w - T > 600000 ->
      fetchWithCache w c endpoint params
        = fetch_and_store w c (getCacheKey endpoint params) endpoint params
      /\ snd (fetchWithCache w c endpoint params)
         = snd (fetchWithCache w (delete (getCacheKey endpoint params) c)
                  endpoint params)).
Proof.
  intros Hc. unfold fetchWithCache. rewrite Hc, lookup_delete_eq. simpl.
  split; intros Ht.
  - destruct (isDataExpired (now_read w) T) eqn:E; [|reflexivity].
    apply isDataExpired_spec in E. lia.
  - apply isDataExpired_spec in Ht. rewrite Ht. simpl.
    split; [reflexivity|apply fetch_and_store_result].
Qed.

(** ** Reasoning about throwing code *)

Lemma bind_Ok {A B} (m : result A) (k : A -> result B) (b : B) :
  (m ≫= k) = Ok b -> exists a, m = Ok a /\ k a = Ok b.
Proof. destruct m as [a|e]; simpl; [eauto|discriminate]. Qed.

Lemma try_catch_total {A} (body : result A) (fallback : A) :
  exists v, try_catch body (fun _ => Ok fallback) = Ok v
            /\ (is_ok body = false -> v = fallback).
Proof.
  destruct body as [a|e]; simpl; [exists a|exists fallback];
    split; congruence || reflexivity.
Qed.

(** Split a hypothesis [x ← m; k = Ok b] into its two halves, repeatedly. *)
Ltac bind_inv H :=
  let a := fresh "x" in
  let H1 := fresh "E" in
  apply bind_Ok in H; destruct H as (a & H1 & H).

Lemma mapM_result_length {A B} (f : nat -> A -> result B) l : forall i l',
  mapM_result f i l = Ok l' -> length l' = length l.
Proof.
  induction l as [|x r IH]; simpl; intros i l' H.
  - injection H as <-. reflexivity.
  - bind_inv H. bind_inv H. injection H as <-. simpl. f_equal. eauto.
Qed.

(** Entry [j] of the result comes from item [j], called with index [i + j]. *)
Lemma mapM_result_lookup {A B} (f : nat -> A -> result B) l : forall i l' j y,
  mapM_result f i l = Ok l' -> l' !! j = Some y ->
  exists x, l !! j = Some x /\ f (i + j)%nat x = Ok y.
Proof.
  induction l as [|x r IH]; simpl; intros i l' j y H Hj.
  - injection H as <-. discriminate.
  - bind_inv H. bind_inv H. injection H as <-.
    destruct j as [|j]; simpl in Hj.
    + injection Hj as <-. exists x. rewrite Nat.add_0_r. auto.
    + destruct (IH _ _ _ _ E0 Hj) as (x' & Hx & Hf).
      exists x'. split; [exact Hx|]. rewrite <- Hf. f_equal. lia.
Qed.

(** [v.slice(0, n).map(...)] runs over at most [n] items, the first [n] of an
    array [v]. *)
Lemma slice_map_items v n sliced items :
  call_slice v n = Ok sliced -> map_receiver sliced = Ok items ->
  exists l, v = VArr l /\ items = firstn n l.
Proof.
  destruct v; simpl; try discriminate; intros [= <-]; simpl;
    try discriminate; intros [= <-]; eauto.
Qed.

(** ** The bounds on the forecasts *)

Section Forecasts.

Variable StringToNumber : string -> num.
Variable LocalTZA : Z -> Z.
Variable toLocaleDateString : Date -> string.
Variable toLocaleTimeString : Date -> string.

Lemma hourlyForecast_of_length d l :
  hourlyForecast_of StringToNumber toLocaleTimeString d = Ok l -> (length l <= 24)%nat.
Proof.
  unfold hourlyForecast_of. intros H. do 3 bind_inv H.
  destruct (slice_map_items _ _ _ _ E0 E1) as (l0 & _ & ->).
  apply mapM_result_length in H. rewrite H, length_firstn. lia.
Qed.

Lemma dailyForecast_of_length d l :
  dailyForecast_of StringToNumber LocalTZA toLocaleDateString d = Ok l ->
  (length l <= 7)%nat.
Proof.
  unfold dailyForecast_of. intros H. do 3 bind_inv H.
  destruct (slice_map_items _ _ _ _ E0 E1) as (l0 & _ & ->).
  apply mapM_result_length in H. rewrite H, length_firstn. lia.
Qed.

(** C5.  Whatever the upstream payload (and whatever the cache, the
    network and the clock do), [getHourlyForecast] returns a list of at
    most 24 entries and [getDailyForecast] a list of at most 7. *)
Theorem forecast_lengths (w : world) (c : gmap string cache_entry) (lat lon : value) :
  (exists l, snd (getHourlyForecast StringToNumber toLocaleTimeString w c lat lon) = Ok l
             /\ (length l <= 24)%nat)
  /\ (exists l, snd (getDailyForecast StringToNumber LocalTZA toLocaleDateString
                       w c lat lon) = Ok l
                /\ (length l <= 7)%nat).
Proof.
  split.
  - unfold getHourlyForecast.
    destruct (fetchWithCache w c "weather" _) as [c' r]. simpl.
    destruct (r ≫= hourlyForecast_of StringToNumber toLocaleTimeString)
      as [l|e] eqn:E; simpl.
    + exists l. split; [reflexivity|].
      destruct r as [d|]; [|discriminate]. eapply hourlyForecast_of_length, E.
    + eexists. split; [reflexivity|]. unfold hourlyForecast_fallback.
      rewrite length_map, length_seq. lia.
  - unfold getDailyForecast.
    destruct (fetchWithCache w c "weather" _) as [c' r]. simpl.
    destruct (r ≫= dailyForecast_of StringToNumber LocalTZA toLocaleDateString)
      as [l|e] eqn:E; simpl.
    + exists l. split; [reflexivity|].
      destruct r as [d|]; [|discriminate]. eapply dailyForecast_of_length, E.
    + eexists. split; [reflexivity|]. unfold dailyForecast_fallback.
      rewrite length_map, length_seq. lia.
Qed.

End Forecasts.

(** ** The proxy route *)

Lemma upstream_Ok fetch url d :
  Route.upstream fetch url = Ok d -> exists st, fetch url = Response true st (Ok d).
Proof.
  unfold Route.upstream. destruct (fetch url) as [|ok st j]; [discriminate|].
  destruct ok; simpl; [intros ->; eauto|discriminate].
Qed.

Lemma upstream_Throw fetch url e :
  Route.upstream fetch url = Throw e -> fetch_fails (fetch url) = true.
Proof.
  unfold Route.upstream, fetch_fails.
  destruct (fetch url) as [|ok st j]; [reflexivity|].
  destruct ok; simpl; [intros ->; reflexivity|reflexivity].
Qed.

Lemma upstream_fails_Throw fetch url :
  fetch_fails (fetch url) = true -> exists e, Route.upstream fetch url = Throw e.
Proof.
  unfold Route.upstream, fetch_fails.
  destruct (fetch url) as [e|ok st j]; [eauto|].
  destruct ok; simpl; [|eauto]. destruct j; [discriminate|eauto].
Qed.

(** C7.  [GET] never throws, and its response is one of:
      - status 200 with the JSON some successful upstream response carried;
      - status 400 with the error body for a missing [lat]/[lon], sent
        exactly when one of them is missing or empty;
      - status 500 with the error body for a missing key;
      - status 400 with the error body for an invalid [type];
      - status 500 with the body [{ error: 'Failed to fetch weather data' }],
        sent when the upstream request failed.
    When every upstream request fails (whatever error or status text the
    provider gives), a request that passes validation gets that last
    response, the same for every provider text. *)
Theorem GET_responses (key : option string) (fetch : string -> fetch_result)
    (query : list (string * string)) :
  (exists r, Route.GET key fetch query = Ok r
     /\ ((Route.status r = 200
          /\ exists url st, fetch url = Response true st (Ok (Route.body r)))
         \/ (r = Route.error_response "Latitude and longitude are required" 400
             /\ (Route.present (Route.searchParams_get "lat" query) = false
                 \/ Route.present (Route.searchParams_get "lon" query) = false))
         \/ (r = Route.error_response "OpenWeatherMap API key is not configured" 500
             /\ Route.present key = false)
         \/ (r = Route.error_response Route.invalid_type_message 400
             /\ ~ In (Route.requested_type query) ["current"; "forecast"; "onecall"])
         \/ (r = Route.error_response "Failed to fetch weather data" 500
             /\ exists url, fetch_fails (fetch url) = true)))
  /\ (Route.present (Route.searchParams_get "lat" query) = true ->
      Route.present (Route.searchParams_get "lon" query) = true ->
      Route.present key = true ->
      In (Route.requested_type query) ["current"; "forecast"; "onecall"] ->
      (forall url, fetch_fails (fetch url) = true) ->
      Route.GET key fetch query
        = Ok (Route.error_response "Failed to fetch weather data" 500)).
Proof.
  unfold Route.GET, Route.GET_try.
  destruct (Route.present (Route.searchParams_get "lat" query)) eqn:Hlat; simpl;
    [|split; [eexists; split; [reflexivity|]; tauto | discriminate]].
  destruct (Route.present (Route.searchParams_get "lon" query)) eqn:Hlon; simpl;
    [|split; [eexists; split; [reflexivity|]; tauto | discriminate]].
  destruct (Route.present key) eqn:Hkey; simpl;
    [|split; [eexists; split; [reflexivity|]; tauto | discriminate]].
  assert (Hrun : forall url,
    (exists r, try_catch (Route.upstream fetch url ≫= fun d =>
                            Ok (Route.mkResponse 200 d Route.cors_headers))
                 (fun _ => Ok (Route.error_response "Failed to fetch weather data" 500))
               = Ok r
       /\ ((Route.status r = 200
            /\ exists url st, fetch url = Response true st (Ok (Route.body r)))
           \/ (r = Route.error_response "Failed to fetch weather data" 500
               /\ exists url, fetch_fails (fetch url) = true)))
    /\ ((forall url, fetch_fails (fetch url) = true) ->
        try_catch (Route.upstream fetch url ≫= fun d =>
                     Ok (Route.mkResponse 200 d Route.cors_headers))
          (fun _ => Ok (Route.error_response "Failed to fetch weather data" 500))
        = Ok (Route.error_response "Failed to fetch weather data" 500))).
  { intros url. split.
    - destruct (Route.upstream fetch url) as [d|e] eqn:E; simpl;
        eexists; (split; [reflexivity|]).
      + left. split; [reflexivity|]. apply upstream_Ok in E as [st E]. simpl. eauto.
      + right. split; [reflexivity|]. apply upstream_Throw in E. eauto.
    - intros Hall. destruct (upstream_fails_Throw fetch url (Hall url)) as [e ->].
      reflexivity. }
  destruct (String.eqb (Route.requested_type query) "current") eqn:T1;
  [|destruct (String.eqb (Route.requested_type query) "forecast") eqn:T2;
    [|destruct (String.eqb (Route.requested_type query) "onecall") eqn:T3]].
  - destruct (Hrun (Route.upstream_url "/weather"
                      (default "" (Route.searchParams_get "lat" query))
                      (default "" (Route.searchParams_get "lon" query))
                      (default "" key) "")) as [(r & Hr & Hcase) Hall].
    split; [exists r; split; [exact Hr|]; destruct Hcase; tauto
           | intros _ _ _ _ Hf; exact (Hall Hf)].
  - destruct (Hrun (Route.upstream_url "/forecast"
                      (default "" (Route.searchParams_get "lat" query))
                      (default "" (Route.searchParams_get "lon" query))
                      (default "" key) "")) as [(r & Hr & Hcase) Hall].
    split; [exists r; split; [exact Hr|]; destruct Hcase; tauto
           | intros _ _ _ _ Hf; exact (Hall Hf)].
  - destruct (Hrun (Route.upstream_url "/onecall"
                      (default "" (Route.searchParams_get "lat" query))
                      (default "" (Route.searchParams_get "lon" query))
                      (default "" key) "&exclude=minutely")) as [(r & Hr & Hcase) Hall].
    split; [exists r; split; [exact Hr|]; destruct Hcase; tauto
           | intros _ _ _ _ Hf; exact (Hall Hf)].
  - apply String.eqb_neq in T1, T2, T3. simpl. split.
    + eexists; split; [reflexivity|]. do 3 right. left. split; [reflexivity|].
      simpl. intuition congruence.
    + intros _ _ _ Hin. simpl in Hin. exfalso. intuition congruence.
Qed.

(** ** Alerts *)

Ltac case_includes :=
  repeat match goal with
         | |- context [includes ?e ?k] => destruct (includes e k); simpl
         end.

Lemma alert_category_of_rules event :
  alert_category_of event = first_match category_rules other event.
Proof. unfold alert_category_of, first_match. simpl. case_includes; reflexivity. Qed.

Lemma alert_type_of_rules event :
  alert_type_of event = first_match type_rules (minor, 3) event.
Proof. unfold alert_type_of, first_match. simpl. case_includes; reflexivity. Qed.

Lemma call_toLowerCase_Ok v s :
  call_toLowerCase v = Ok s -> exists ev, v = VStr ev /\ s = toLowerCase ev.
Proof. destruct v; simpl; try discriminate. intros [= <-]. eauto. Qed.

Section Alerts.

Variable StringToNumber : string -> num.

(** C4.  An alert that [getWeatherAlerts] classifies has a string as event
    text, and on its lower-cased text (so case does not matter):
      - the category is the result of the first matching rule in the order
        storm/thunder, rain/flood, wind, snow/winter,
        temperature/heat/cold, else [other];
      - the type is [severe] for severe/extreme/warning, else [moderate]
        for watch/advisory, else [minor], with scores 8, 6 and 3.
    The payload with the events [Severe Thunderstorm Warning],
    [Heavy Rain Advisory] and [Wind Advisory] yields (severe, storm, 8),
    (moderate, rain, 6) and (moderate, wind, 6). *)
Theorem alert_classification :
  (forall (index : nat) (alert : value) (a : WeatherAlert.t),
      alert_of_item StringToNumber index alert = Ok a ->
      exists ev, get_prop alert "event" = Ok (VStr ev)
        /\ WeatherAlert.title a = VStr ev
        /\ WeatherAlert.category a = first_match category_rules other (toLowerCase ev)
        /\ (WeatherAlert.type a, WeatherAlert.severity a)
           = first_match type_rules (minor, 3) (toLowerCase ev)
        /\ WeatherAlert.severity a = severity_score (WeatherAlert.type a))
  /\ (exists l,
        snd (getWeatherAlerts StringToNumber
               (Sample.world_with (Sample.ok_with Sample.onecall_payload) 1700000000000)
               ∅ Sample.lat Sample.lon)
        = Ok l
        /\ map (fun a => (WeatherAlert.title a, WeatherAlert.type a,
                          WeatherAlert.category a, WeatherAlert.severity a)) l
           = [(VStr "Severe Thunderstorm Warning", severe, storm, 8);
              (VStr "Heavy Rain Advisory", moderate, rain, 6);
              (VStr "Wind Advisory", moderate, wind, 6)]).
Proof.
  split.
  - intros index alert a H. unfold alert_of_item in H.
    bind_inv H. bind_inv H.
    apply call_toLowerCase_Ok in E0 as (ev & -> & ->).
    exists ev. split; [exact E|].
    destruct (alert_type_of (toLowerCase ev)) as [ty sev] eqn:Ety.
    do 7 bind_inv H. injection H as <-. simpl.
    rewrite <- alert_type_of_rules, Ety, alert_category_of_rules.
    repeat split.
    unfold alert_type_of in Ety.
    repeat match type of Ety with
           | context [includes ?e ?k] => destruct (includes e k); simpl in Ety
           end; injection Ety as <- <-; reflexivity.
  - eexists. split; [vm_compute; reflexivity|reflexivity].
Qed.

End Alerts.

(** ** Wind speed *)


Lemma Math_round_mul (q k : Q) :
  Math_round (num_mul (Fin q) (Fin k)) = Math_round (Fin (q * k)).
Proof.
  unfold num_mul, Math_round. f_equal. apply Qfloor_comp.
  rewrite Qred_correct. reflexivity.
Qed.

Section WindSpeed.

Variable StringToNumber : string -> num.

Lemma round_scaled_number (q k : Q) (n : num) :
  round_scaled StringToNumber (VNum (Fin q)) k = Ok n -> n = Math_round (Fin (q * k)).
Proof.
  intros H. rewrite <- Math_round_mul.
  change (Ok (Math_round (num_mul (Fin q) (Fin k))) = Ok n) in H. congruence.
Qed.


End WindSpeed.

(** ** The cache key *)

Lemma append_assoc (a b c : string) : (a +:+ b) +:+ c = a +:+ (b +:+ c).
Proof. induction a as [|x a IH]; simpl; congruence. Qed.

Lemma append_inj_l (a b c : string) : a +:+ b = a +:+ c -> b = c.
Proof. induction a as [|x a IH]; simpl; [auto|]. intros [= H]. auto. Qed.

Lemma unescape_head_escape (c : ascii) (r : string) :
  unescape_head (json_escape c +:+ r) = Some (c, r).
Proof. destruct c as [[] [] [] [] [] [] [] []]; reflexivity. Qed.

(** Escaped text up to its closing quote determines the text and what
    follows the quote. *)
Lemma json_escape_all_inj (s1 : string) : forall s2 r1 r2,
  json_escape_all s1 +:+ String dquote r1 = json_escape_all s2 +:+ String dquote r2 ->
  s1 = s2 /\ r1 = r2.
Proof.
  induction s1 as [|c1 s1 IH]; intros [|c2 s2] r1 r2 H; simpl in H.
  - injection H as ->. auto.
  - apply (f_equal unescape_head) in H.
    rewrite append_assoc, unescape_head_escape in H. discriminate.
  - apply (f_equal unescape_head) in H.
    rewrite append_assoc, unescape_head_escape in H. discriminate.
  - apply (f_equal unescape_head) in H.
    rewrite !append_assoc, !unescape_head_escape in H.
    injection H as -> H. apply IH in H as [-> ->]. auto.
Qed.

Lemma json_quote_prefix_free (k1 k2 r1 r2 : string) :
  json_quote k1 +:+ r1 = json_quote k2 +:+ r2 -> k1 = k2 /\ r1 = r2.
Proof.
  unfold json_quote. simpl. rewrite !append_assoc. simpl.
  intros [= H]. exact (json_escape_all_inj _ _ _ _ H).
Qed.

Lemma JSON_stringify_object (l : list (string * value)) :
  JSON_stringify (VObj l) = Some ("{" +:+ join "," (object_members l) +:+ "}").
Proof.
  reflexivity.
Qed.

(** What the serialised members begin with. *)
Lemma members_head (l : list (string * value)) :
  match first_serialised_name l with
  | None => join "," (object_members l) +:+ "}" = "}"
  | Some k => exists rest, join "," (object_members l) +:+ "}" = json_quote k +:+ rest
  end.
Proof.
  induction l as [|[k x] r IH]; simpl; [reflexivity|].
  destruct (JSON_stringify x) as [s|]; [|exact IH].
  clear IH. destruct (object_members r) as [|m ms]; cbn [join].
  - exists (":" +:+ s +:+ "}"). unfold json_quote. simpl.
    rewrite !append_assoc. reflexivity.
  - exists (":" +:+ s +:+ "," +:+ join "," (m :: ms) +:+ "}").
    unfold json_quote. simpl. rewrite !append_assoc. reflexivity.
Qed.

Lemma getCacheKey_text (e : string) (P : list (string * value)) :
  getCacheKey e P = e +:+ "-" +:+ "{" +:+ join "," (object_members P) +:+ "}".
Proof. reflexivity. Qed.

(** C1, as the code has it.  The key of [(endpoint, P1)] equals the key of
    [(endpoint, P2)] exactly when [JSON.stringify] writes the same text for
    [P1] and [P2]; the text lists the properties in enumeration order, so
    two mappings whose first serialised properties have different names
    never share a key. *)
Theorem getCacheKey_order_sensitive (endpoint : string)
    (P1 P2 : list (string * value)) :
  (getCacheKey endpoint P1 = getCacheKey endpoint P2
   <-> JSON_stringify (VObj P1) = JSON_stringify (VObj P2))
  /\ (first_serialised_name P1 <> first_serialised_name P2 ->
      getCacheKey endpoint P1 <> getCacheKey endpoint P2).
Proof.
  assert (Hiff : getCacheKey endpoint P1 = getCacheKey endpoint P2
                 <-> JSON_stringify (VObj P1) = JSON_stringify (VObj P2)).
  { rewrite !getCacheKey_text, !JSON_stringify_object. split.
    - intros H. apply append_inj_l, append_inj_l in H. congruence.
    - intros [= H]. rewrite H. reflexivity. }
  split; [exact Hiff|].
  intros Hne Heq. apply Hiff in Heq. rewrite !JSON_stringify_object in Heq.
  injection Heq as Heq.
  pose proof (members_head P1) as H1. pose proof (members_head P2) as H2.
  destruct (first_serialised_name P1) as [k1|], (first_serialised_name P2) as [k2|].
  - destruct H1 as [r1 H1], H2 as [r2 H2]. rewrite H1, H2 in Heq.
    apply json_quote_prefix_free in Heq as [-> _]. congruence.
  - destruct H1 as [r1 H1]. rewrite H1, H2 in Heq. discriminate.
  - destruct H2 as [r2 H2]. rewrite H1, H2 in Heq. discriminate.
  - congruence.
Qed.

(** ** The fallbacks conform to the interfaces *)





Section Fallbacks.

Variable LocalTZA : Z -> Z.
Variable toLocaleDateString : Date -> string.





End Fallbacks.

(** ** The four fetchers never throw *)


Section Fetchers.

Variable StringToNumber : string -> num.
Variable LocalTZA : Z -> Z.
Variable toLocaleDateString : Date -> string.
Variable toLocaleTimeString : Date -> string.


End Fetchers.

(** ** Day labels of the daily forecast *)

Section DayLabels.

Variable StringToNumber : string -> num.
Variable LocalTZA : Z -> Z.
Variable toLocaleDateString : Date -> string.




End DayLabels.

(** ** A search that finds no city *)

Lemma run_callbacks_displayed (l : list (Z * Page.timer_callback)) : forall s,
  displayed (fold_left (fun s t => Page.run_callback (snd t) s) l s) = displayed s.
Proof.
  induction l as [|[d cb] l IH]; intros s; simpl; [reflexivity|].
  rewrite IH. destruct cb. reflexivity.
Qed.

Lemma run_callbacks_searchError (l : list (Z * Page.timer_callback)) : forall s,
  Page.searchError (fold_left (fun s t => Page.run_callback (snd t) s) l s)
  = match l with [] => Page.searchError s | _ => None end.
Proof.
  induction l as [|[d cb] l IH]; intros s; [reflexivity|].
  simpl. rewrite IH. destruct cb, l; reflexivity.
Qed.

Lemma filter_app_last {A} (f : A -> bool) (l : list A) (x : A) :
  f x = true -> List.filter f (l ++ [x])%list <> [].
Proof.
  intros Hx. rewrite List.filter_app. simpl. rewrite Hx.
  destruct (List.filter f l); discriminate.
Qed.

Section Search.

Variable StringToNumber : string -> num.
Variable LocalTZA : Z -> Z.
Variable toLocaleDateString : Date -> string.
Variable toLocaleTimeString : Date -> string.

Lemma getWeatherByCity_not_found key w c cityName st :
  fetch w (geocodingUrl key cityName) = Response true st (Ok (VArr [])) ->
  getWeatherByCity StringToNumber key w c cityName
  = (c, Throw (Error (not_found_message cityName))).
Proof.
  intros Hgeo. unfold getWeatherByCity, getWeatherByCity_try. rewrite Hgeo.
  reflexivity.
Qed.

(** C6.  A search whose city lookup answers with an empty list:
      - [getWeatherByCity] throws, its message saying the city was not
        found;
      - [handleSearch] leaves the four displayed view models as they were,
        shows that message, schedules its clearing 3000 ms later and ends
        with [loading] off;
      - once 3000 ms have passed the message is gone and the view models
        are still the previous ones, and with no older timer pending the
        message stays up for any shorter wait. *)
Theorem search_not_found (key : option string) (w0 w1 w2 w3 : world)
    (s : Page.state) (st : string) :
  Page.trim (Page.searchQuery s) <> "" ->
  fetch w0 (geocodingUrl key (Page.searchQuery s)) = Response true st (Ok (VArr [])) ->
  let s' := Page.handleSearch StringToNumber LocalTZA toLocaleDateString
              toLocaleTimeString key w0 w1 w2 w3 s in
  snd (getWeatherByCity StringToNumber key w0 (Page.cache s) (Page.searchQuery s))
    = Throw (Error (not_found_message (Page.searchQuery s)))
  /\ displayed s' = displayed s
  /\ Page.searchError s' = Some (not_found_message (Page.searchQuery s))
  /\ Page.timers s' = (Page.timers s ++ [(3000, Page.ClearSearchError)])%list
  /\ Page.loading s' = false
  /\ Page.searchError (Page.elapse 3000 s') = None
  /\ displayed (Page.elapse 3000 s') = displayed s
  /\ (Page.timers s = [] -> forall dt, 0 <= dt < 3000 ->
      Page.searchError (Page.elapse dt s')
      = Some (not_found_message (Page.searchQuery s))).
Proof.
  intros Hq Hgeo s'.
  assert (Hs' : s' = Page.setLoading false
                       (Page.search_failed (Error (not_found_message (Page.searchQuery s)))
                          (Page.with_cache (Page.cache s)
                             (Page.setSearchError None (Page.setLoading true s))))).
  { subst s'. unfold Page.handleSearch.
    apply String.eqb_neq in Hq. rewrite Hq. cbn [Page.cache Page.searchQuery
      Page.setSearchError Page.setLoading].
    rewrite (getWeatherByCity_not_found _ _ _ _ _ Hgeo). reflexivity. }
  split; [rewrite (getWeatherByCity_not_found _ _ _ _ _ Hgeo); reflexivity|].
  rewrite Hs'. clear Hs' s'.
  split; [reflexivity|]. split; [reflexivity|]. split; [reflexivity|].
  split; [reflexivity|].
  unfold Page.elapse.
  rewrite run_callbacks_searchError, run_callbacks_displayed.
  cbn [Page.timers Page.setLoading Page.search_failed Page.setTimeout
       Page.setSearchError Page.with_cache Page.searchError].
  split; [|split; [reflexivity|]].
  - pose proof (filter_app_last (fun t : Z * Page.timer_callback => fst t <=? 3000)
                  (Page.timers s) (3000, Page.ClearSearchError) eq_refl) as Hne.
    destruct (List.filter _ (Page.timers s ++ _)%list); [congruence|reflexivity].
  - intros Ht dt Hdt. rewrite run_callbacks_searchError.
    cbn [Page.timers Page.setLoading Page.search_failed Page.setTimeout
         Page.setSearchError Page.with_cache Page.searchError].
    rewrite Ht. simpl. replace (3000 <=? dt) with false by (symmetry; apply Z.leb_gt; lia).
    reflexivity.
Qed.

End Search.

(** ** What the cache holds *)

Lemma upstream_payload_mono (ws ws' : list world) (d : value) :
  (forall w, w ∈ ws -> w ∈ ws') -> upstream_payload ws d -> upstream_payload ws' d.
Proof. intros Hsub (w & url & st & Hw & Hf). exists w, url, st. auto. Qed.

Lemma from_upstream_mono (ws ws' : list world) (c : gmap string cache_entry) :
  (forall w, w ∈ ws -> w ∈ ws') -> from_upstream ws c -> from_upstream ws' c.
Proof. intros Hsub Hc key entry E. eapply upstream_payload_mono; eauto. Qed.

(** The only write: a body that was just fetched and parsed. *)
Lemma fetch_and_store_upstream w ws c key e p c' r :
  from_upstream ws c -> fetch_and_store w c key e p = (c', r) ->
  from_upstream (w :: ws) c'
  /\ forall d, r = Ok d -> upstream_payload (w :: ws) d.
Proof.
  intros Hc H.
  assert (Hc' : from_upstream (w :: ws) c)
    by (eapply from_upstream_mono; [|exact Hc]; intros; apply elem_of_cons; auto).
  unfold fetch_and_store in H.
  destruct (URLSearchParams_toString p) as [qs|err];
    [|injection H as <- <-; split; [exact Hc'|discriminate]].
  match type of H with context [fetch w ?u] =>
    destruct (fetch w u) as [err|ok st j] eqn:Ef end;
    [injection H as <- <-; split; [exact Hc'|discriminate]|].
  destruct ok; simpl in H;
    [|injection H as <- <-; split; [exact Hc'|discriminate]].
  destruct j as [d|err]; injection H as <- <-; [|split; [exact Hc'|discriminate]].
  assert (Hd : upstream_payload (w :: ws) d).
  { eexists w, _, st. split; [apply elem_of_cons; auto|exact Ef]. }
  split.
  - intros k entry E. destruct (decide (key = k)) as [->|Hne].
    + rewrite lookup_insert_eq in E. injection E as <-. exact Hd.
    + rewrite lookup_insert_ne in E by exact Hne. eapply Hc'; eauto.
  - intros d' [= <-]. exact Hd.
Qed.

Lemma fetchWithCache_upstream w ws c e p c' r :
  from_upstream ws c -> fetchWithCache w c e p = (c', r) ->
  from_upstream (w :: ws) c'
  /\ forall d, r = Ok d -> upstream_payload (w :: ws) d.
Proof.
  intros Hc H. unfold fetchWithCache in H.
  destruct (c !! getCacheKey e p) as [cached|] eqn:E;
    [|eapply fetch_and_store_upstream; eauto].
  destruct (negb (isDataExpired (now_read w) (timestamp cached)));
    [|eapply fetch_and_store_upstream; eauto].
  injection H as <- <-.
  assert (Hsub : forall w', w' ∈ ws -> w' ∈ w :: ws)
    by (intros; apply elem_of_cons; auto).
  split; [eapply from_upstream_mono; eauto|].
  intros d [= <-]. eapply upstream_payload_mono; [exact Hsub|]. eapply Hc; eauto.
Qed.

Lemma fetchWithCache_all_fail w c e p :
  (forall url, fetch_fails (fetch w url) = true) -> fst (fetchWithCache w c e p) = c.
Proof.
  intros Hf. unfold fetchWithCache.
  assert (Hmiss : fst (fetch_and_store w c (getCacheKey e p) e p) = c).
  { unfold fetch_and_store.
    destruct (URLSearchParams_toString p) as [qs|err]; [|reflexivity].
    match goal with |- context [fetch w ?u] => specialize (Hf u);
      destruct (fetch w u) as [err|ok st j] end; [reflexivity|].
    destruct ok; simpl in *; [|reflexivity].
    destruct j; [discriminate|reflexivity]. }
  destruct (c !! getCacheKey e p) as [cached|]; [|exact Hmiss].
  destruct (negb (isDataExpired (now_read w) (timestamp cached))); [reflexivity|exact Hmiss].
Qed.

Section Provenance.

Variable StringToNumber : string -> num.
Variable LocalTZA : Z -> Z.
Variable toLocaleDateString : Date -> string.
Variable toLocaleTimeString : Date -> string.

(** Each fetcher leaves the cache its [fetchWithCache] call leaves. *)
Lemma fetcher_cache {A} w c e p (k : value -> result A) (fallback : A) :
  fst (let '(c', r) := fetchWithCache w c e p in
       (c', try_catch (r ≫= k) (fun _ => Ok fallback)))
  = fst (fetchWithCache w c e p).
Proof. destruct (fetchWithCache w c e p). reflexivity. Qed.

Lemma getWeatherByCity_cache key w c cityName :
  fst (getWeatherByCity StringToNumber key w c cityName) = c
  \/ exists lat lon,
       fst (getWeatherByCity StringToNumber key w c cityName)
       = fst (fetchWithCache w c "weather" (weather_params lat lon "current")).
Proof.
  unfold getWeatherByCity, getWeatherByCity_try.
  destruct (fetch w (geocodingUrl key cityName)) as [err|ok st j]; [auto|].
  destruct ok; simpl; [|auto]. destruct j as [g|err]; [|auto].
  match goal with
  | |- context [match ?m with Ok _ => _ | Throw _ => _ end] =>
      destruct m as [[[[lat lon] name] country]|err]; [|auto]
  end.
  right. exists lat, lon. unfold getCurrentWeather.
  destruct (fetchWithCache w c "weather" (weather_params lat lon "current")) as [c' r].
  cbn [fst]. destruct (try_catch _ _); reflexivity.
Qed.

Lemma run_op_upstream w o ws c :
  from_upstream ws c ->
  from_upstream (w :: ws)
    (run_op StringToNumber LocalTZA toLocaleDateString toLocaleTimeString w o c).
Proof.
  intros Hc.
  assert (Hfetch : forall e p, from_upstream (w :: ws) (fst (fetchWithCache w c e p))).
  { intros e p. destruct (fetchWithCache w c e p) as [c' r] eqn:E.
    exact (proj1 (fetchWithCache_upstream _ _ _ _ _ _ _ Hc E)). }
  destruct o as [lat lon|lat lon|lat lon|lat lon|key cityName|]; cbn [run_op].
  - unfold getCurrentWeather. rewrite fetcher_cache. apply Hfetch.
  - unfold getHourlyForecast. rewrite fetcher_cache. apply Hfetch.
  - unfold getDailyForecast. rewrite fetcher_cache. apply Hfetch.
  - unfold getWeatherAlerts. rewrite fetcher_cache. apply Hfetch.
  - destruct (getWeatherByCity_cache key w c cityName) as [->|(lat & lon & ->)].
    + eapply from_upstream_mono; [|exact Hc]. intros; apply elem_of_cons; auto.
    + apply Hfetch.
  - intros key entry E. unfold clearCache in E. rewrite lookup_empty in E. discriminate.
Qed.

Lemma run_ops_upstream (trace : list (world * op)) : forall ws c,
  from_upstream ws c ->
  from_upstream (ws ++ map fst trace)
    (run_ops StringToNumber LocalTZA toLocaleDateString toLocaleTimeString trace c).
Proof.
  induction trace as [|[w o] trace IH]; intros ws c Hc; simpl.
  - rewrite app_nil_r. exact Hc.
  - eapply from_upstream_mono; [|apply IH, (run_op_upstream w o), Hc].
    intros w'. rewrite !elem_of_app, !elem_of_cons. tauto.
Qed.

Lemma run_op_all_fail w o c :
  (forall url, fetch_fails (fetch w url) = true) -> o <> CallClearCache ->
  run_op StringToNumber LocalTZA toLocaleDateString toLocaleTimeString w o c = c.
Proof.
  intros Hf Ho.
  destruct o as [lat lon|lat lon|lat lon|lat lon|key cityName|]; cbn [run_op];
    [| | | | |congruence].
  - unfold getCurrentWeather. rewrite fetcher_cache. apply fetchWithCache_all_fail, Hf.
  - unfold getHourlyForecast. rewrite fetcher_cache. apply fetchWithCache_all_fail, Hf.
  - unfold getDailyForecast. rewrite fetcher_cache. apply fetchWithCache_all_fail, Hf.
  - unfold getWeatherAlerts. rewrite fetcher_cache. apply fetchWithCache_all_fail, Hf.
  - destruct (getWeatherByCity_cache key w c cityName) as [->|(lat & lon & ->)];
      [reflexivity|apply fetchWithCache_all_fail, Hf].
Qed.

(** C10.  After any run of the service from an empty cache:
      - every cache entry holds the body of a successful response given
        during the run;
      - so whatever a later [fetchWithCache] returns, from the cache or
        fresh, is the body of a successful response;
      - and a call answered by failing requests only (the calls that end in
        a fallback for lack of upstream data) leaves the cache as it was:
        no fallback value is ever stored. *)
Theorem cache_holds_upstream_payloads (trace : list (world * op)) :
  let c := run_ops StringToNumber LocalTZA toLocaleDateString toLocaleTimeString
             trace ∅ in
  from_upstream (map fst trace) c
  /\ (forall w endpoint params c' d,
        fetchWithCache w c endpoint params = (c', Ok d) ->
        upstream_payload (w :: map fst trace) d)
  /\ (forall w o,
        (forall url, fetch_fails (fetch w url) = true) -> o <> CallClearCache ->
        run_op StringToNumber LocalTZA toLocaleDateString toLocaleTimeString w o c
        = c).
Proof.
  intros c.
  assert (H : from_upstream (map fst trace) c).
  { apply (run_ops_upstream trace [] ∅). intros key entry E.
    rewrite lookup_empty in E. discriminate. }
  split; [exact H|]. split.
  - intros w e p c' d E.
    exact (proj2 (fetchWithCache_upstream _ _ _ _ _ _ _ H E) d eq_refl).
  - intros w o. apply run_op_all_fail.
Qed.

End Provenance.

(** * Further properties of the service *)

(** ** Storing and reading back *)

(** No entry under [key] would be served at the time of [w]. *)
Lemma stale_key_refetches w c e p :
  (forall entry, c !! getCacheKey e p = Some entry ->
                 isDataExpired (now_read w) (timestamp entry) = true) ->
  fetchWithCache w c e p = fetch_and_store w c (getCacheKey e p) e p.
Proof.
  intros H. unfold fetchWithCache.
  destruct (c !! getCacheKey e p) as [entry|]; [|reflexivity].
  rewrite (H entry eq_refl). reflexivity.
Qed.

Lemma fresh_entry_served w c e p d T :
  c !! getCacheKey e p = Some (mkEntry d T) -> now_read w - T <= 600000 ->
  fetchWithCache w c e p = (c, Ok d).
Proof.
  intros Hc Ht. unfold fetchWithCache. rewrite Hc. simpl.
  destruct (isDataExpired (now_read w) T) eqn:E; [|reflexivity].
  apply isDataExpired_spec in E. lia.
Qed.

(** A refetch that succeeded is read back, unchanged and without a request,
    by every call within ten minutes of the write. *)
Lemma store_then_read w1 w2 c e p c1 d :
  fetch_and_store w1 c (getCacheKey e p) e p = (c1, Ok d) ->
  now_read w2 - now_write w1 <= 600000 ->
  fetchWithCache w2 c1 e p = (c1, Ok d).
Proof.
  intros Hs Ht. apply fetch_and_store_writes in Hs. subst c1.
  eapply fresh_entry_served; [apply lookup_insert_eq|exact Ht].
Qed.

(** X1.  When [fetchWithCache] had to go to the network (no entry, or an
    expired one) and the request succeeded, a second call for the same
    endpoint and parameters made no later than 600000 ms after the write
    returns the same payload and leaves the cache as the first call left
    it, whatever the network would answer at that time. *)
Theorem fetchWithCache_store_then_read (w1 w2 : world) (c c1 : gmap string cache_entry)
    (endpoint : string) (params : list (string * value)) (d : value) :
  (forall entry, c !! getCacheKey endpoint params = Some entry ->
                 isDataExpired (now_read w1) (timestamp entry) = true) ->
  fetchWithCache w1 c endpoint params = (c1, Ok d) ->
  now_read w2 - now_write w1 <= 600000 ->
  fetchWithCache w2 c1 endpoint params = (c1, Ok d).
Proof.
  intros Hstale H1 Ht. rewrite (stale_key_refetches _ _ _ _ Hstale) in H1.
  eapply store_then_read; eauto.
Qed.

(** ** Keys of the three views *)

Lemma weather_params_members (lat lon : value) (type : string) :
  exists pre, forall t,
    join "," (object_members (weather_params lat lon t)) +:+ "}"
    = pre +:+ json_quote t +:+ "}".
Proof.
  unfold weather_params. cbn [object_members JSON_stringify].
  destruct (JSON_stringify lat) as [a|], (JSON_stringify lon) as [b|]; cbn [join].
  - exists (json_quote "lat" +:+ ":" +:+ a +:+ "," +:+ json_quote "lon" +:+ ":" +:+ b
            +:+ "," +:+ json_quote "type" +:+ ":").
    intros t. rewrite !append_assoc. reflexivity.
  - exists (json_quote "lat" +:+ ":" +:+ a +:+ "," +:+ json_quote "type" +:+ ":").
    intros t. rewrite !append_assoc. reflexivity.
  - exists (json_quote "lon" +:+ ":" +:+ b +:+ "," +:+ json_quote "type" +:+ ":").
    intros t. rewrite !append_assoc. reflexivity.
  - exists (json_quote "type" +:+ ":").
    intros t. rewrite !append_assoc. reflexivity.
Qed.

Lemma getCacheKey_type_inj (endpoint : string) (lat lon : value) (t1 t2 : string) :
  getCacheKey endpoint (weather_params lat lon t1)
  = getCacheKey endpoint (weather_params lat lon t2) ->
  t1 = t2.
Proof.
  rewrite !getCacheKey_text. intros H.
  apply append_inj_l, append_inj_l, append_inj_l in H.
  destruct (weather_params_members lat lon t1) as [pre Hpre].
  rewrite !Hpre in H. apply append_inj_l in H.
  apply json_quote_prefix_free in H. tauto.
Qed.

Lemma fetchWithCache_other_keys w c e p key :
  key <> getCacheKey e p -> fst (fetchWithCache w c e p) !! key = c !! key.
Proof.
  intros Hne. destruct (fetchWithCache w c e p) as [c1 r] eqn:E. cbn [fst].
  unfold fetchWithCache in E.
  assert (Hfs : forall c1 r, fetch_and_store w c (getCacheKey e p) e p = (c1, r) ->
                             c1 !! key = c !! key).
  { clear E. intros c2 r2 H. unfold fetch_and_store in H.
    destruct (URLSearchParams_toString p) as [qs|err];
      [|injection H as <- _; reflexivity].
    match type of H with context [fetch w ?u] =>
      destruct (fetch w u) as [err|ok st j] end;
      [injection H as <- _; reflexivity|].
    destruct ok; simpl in H; [|injection H as <- _; reflexivity].
    destruct j as [d|err]; [|injection H as <- _; reflexivity].
    injection H as <- _. apply lookup_insert_ne. congruence. }
  destruct (c !! getCacheKey e p) as [cached|]; [|eauto].
  destruct (negb (isDataExpired (now_read w) (timestamp cached)));
    [injection E as <- _; reflexivity|eauto].
Qed.

(** X2.  For the same coordinates, the cache keys of two different request
    types are different, so a call for one view (current, forecast, onecall)
    never creates, replaces or removes the entry of another. *)
Theorem views_do_not_collide (w : world) (c : gmap string cache_entry)
    (endpoint : string) (lat lon : value) (t1 t2 : string) :
  t1 <> t2 ->
  getCacheKey endpoint (weather_params lat lon t1)
  <> getCacheKey endpoint (weather_params lat lon t2)
  /\ fst (fetchWithCache w c endpoint (weather_params lat lon t1))
       !! getCacheKey endpoint (weather_params lat lon t2)
     = c !! getCacheKey endpoint (weather_params lat lon t2).
Proof.
  intros Hne.
  assert (Hk : getCacheKey endpoint (weather_params lat lon t1)
               <> getCacheKey endpoint (weather_params lat lon t2))
    by (intros H; apply Hne; eapply getCacheKey_type_inj; exact H).
  split; [exact Hk|]. apply fetchWithCache_other_keys. congruence.
Qed.

(** ** Decimal names are distinct *)

Lemma Z_to_int_not_nil (z : Z) :
  Z.to_int z <> Decimal.Pos Decimal.Nil /\ Z.to_int z <> Decimal.Neg Decimal.Nil.
Proof.
  pose proof (DecimalZ.to_of (Z.to_int z)) as H. rewrite DecimalZ.of_to in H.
  split; intros E; rewrite E in H; discriminate.
Qed.

Lemma Z_to_string_inj (z1 z2 : Z) : Z_to_string z1 = Z_to_string z2 -> z1 = z2.
Proof.
  unfold Z_to_string. intros H. apply (f_equal NilZero.int_of_string) in H.
  destruct (Z_to_int_not_nil z1), (Z_to_int_not_nil z2).
  rewrite !NilZero.isi in H by assumption. injection H as H.
  apply (f_equal Z.of_int) in H. rewrite !DecimalZ.of_to in H. exact H.
Qed.

(** ** One payload for the daily forecast and the alerts; alerts as a whole *)

Lemma mapM_result_throw {A B} (f : nat -> A -> result B) l : forall i j x,
  l !! j = Some x -> is_ok (f (i + j)%nat x) = false ->
  is_ok (mapM_result f i l) = false.
Proof.
  induction l as [|y r IH]; intros i j x Hj Hf; [discriminate|].
  simpl. destruct j as [|j]; simpl in Hj.
  - injection Hj as ->. rewrite Nat.add_0_r in Hf.
    destruct (f i x); [discriminate|reflexivity].
  - destruct (f i y); [|reflexivity]. simpl.
    assert (Hr : is_ok (mapM_result f (S i) r) = false).
    { eapply IH; [exact Hj|]. replace (S i + j)%nat with (i + S j)%nat by lia. exact Hf. }
    destruct (mapM_result f (S i) r); [discriminate|reflexivity].
Qed.

Section SharedPayload.

Variable StringToNumber : string -> num.
Variable LocalTZA : Z -> Z.
Variable toLocaleDateString : Date -> string.

(** X3.  [getDailyForecast] and [getWeatherAlerts] use the same cache entry.
    Once one of them has fetched the one-call payload [d], a call of either
    within 600000 ms of the write makes no request: its result is what
    the normaliser gives on [d], whatever the network would answer, and the
    cache stays as it was. *)
Theorem onecall_entry_shared (w1 w2 : world) (c c1 : gmap string cache_entry)
    (lat lon d : value) :
  (forall entry,
      c !! getCacheKey "weather" (weather_params lat lon "onecall") = Some entry ->
      isDataExpired (now_read w1) (timestamp entry) = true) ->
  fetchWithCache w1 c "weather" (weather_params lat lon "onecall") = (c1, Ok d) ->
  now_read w2 - now_write w1 <= 600000 ->
  fst (getDailyForecast StringToNumber LocalTZA toLocaleDateString w1 c lat lon) = c1
  /\ fst (getWeatherAlerts StringToNumber w1 c lat lon) = c1
  /\ getWeatherAlerts StringToNumber w2 c1 lat lon
     = (c1, try_catch (weatherAlerts_of StringToNumber d) (fun _ => Ok []))
  /\ getDailyForecast StringToNumber LocalTZA toLocaleDateString w2 c1 lat lon
     = (c1, try_catch (dailyForecast_of StringToNumber LocalTZA toLocaleDateString d)
              (fun _ => Ok (dailyForecast_fallback LocalTZA toLocaleDateString w2))).
Proof.
  intros Hstale H1 Ht.
  assert (H2 : fetchWithCache w2 c1 "weather" (weather_params lat lon "onecall")
               = (c1, Ok d)).
  { rewrite (stale_key_refetches _ _ _ _ Hstale) in H1.
    eapply store_then_read; eauto. }
  unfold getDailyForecast, getWeatherAlerts. rewrite H1, H2. auto.
Qed.

(** X8.  The alerts come all or none: as soon as the callback throws on one
    alert of the payload (its event is not a string, or its start or end is
    not a time), [getWeatherAlerts] returns the empty list, dropping the
    alerts that were well formed. *)
Theorem alerts_all_or_nothing (w : world) (c : gmap string cache_entry)
    (lat lon d : value) (l : list value) (j : nat) (item : value) :
  snd (fetchWithCache w c "weather" (weather_params lat lon "onecall")) = Ok d ->
  get_prop d "alerts" = Ok (VArr l) ->
  l !! j = Some item ->
  is_ok (alert_of_item StringToNumber j item) = false ->
  snd (getWeatherAlerts StringToNumber w c lat lon) = Ok [].
Proof.
  intros Hd Ha Hj Hf. unfold getWeatherAlerts.
  destruct (fetchWithCache w c "weather" _) as [c1 r]. cbn [snd] in *. subst r.
  cbn [mbind result_bind]. unfold weatherAlerts_of. rewrite Ha. cbn.
  pose proof (mapM_result_throw (alert_of_item StringToNumber) l 0 j item Hj Hf) as Ht.
  destruct (mapM_result _ 0 l); [discriminate|reflexivity].
Qed.

Lemma weatherAlerts_of_items d l :
  weatherAlerts_of StringToNumber d = Ok l ->
  l = [] \/ exists items, mapM_result (alert_of_item StringToNumber) 0 items = Ok l.
Proof.
  unfold weatherAlerts_of. intros H. bind_inv H.
  destruct (negb (truthy x)); [injection H as <-; auto|].
  bind_inv H. eauto.
Qed.

Lemma alert_of_item_id index alert a :
  alert_of_item StringToNumber index alert = Ok a ->
  WeatherAlert.id a = "alert-" +:+ Z_to_string (Z.of_nat index).
Proof.
  unfold alert_of_item. intros H. do 2 bind_inv H.
  destruct (alert_type_of x0). do 7 bind_inv H. injection H as <-. reflexivity.
Qed.

(** X9.  The alert at position [i] of the result has the identifier
    [alert-i], and no two alerts of a result share an identifier. *)
Theorem alert_ids_distinct (w : world) (c : gmap string cache_entry)
    (lat lon : value) :
  exists l, snd (getWeatherAlerts StringToNumber w c lat lon) = Ok l
    /\ (forall i a, l !! i = Some a ->
          WeatherAlert.id a = "alert-" +:+ Z_to_string (Z.of_nat i))
    /\ NoDup (map WeatherAlert.id l).
Proof.
  assert (Hids : forall l : list WeatherAlert.t,
            (forall i a, l !! i = Some a ->
                         WeatherAlert.id a = "alert-" +:+ Z_to_string (Z.of_nat i)) ->
            NoDup (map WeatherAlert.id l)).
  { intros l Hl. apply NoDup_alt. intros i j x Hi Hj.
    rewrite list_lookup_fmap in Hi, Hj.
    destruct (l !! i) as [a|] eqn:Ea; [|discriminate].
    destruct (l !! j) as [b|] eqn:Eb; [|discriminate].
    injection Hi as Hi. injection Hj as Hj.
    rewrite (Hl _ _ Ea) in Hi. rewrite (Hl _ _ Eb) in Hj.
    rewrite <- Hj in Hi. apply append_inj_l, Z_to_string_inj in Hi. lia. }
  unfold getWeatherAlerts.
  destruct (fetchWithCache w c "weather" _) as [c1 r]. cbn [snd].
  destruct (r ≫= weatherAlerts_of StringToNumber) as [l|err] eqn:E; cbn [try_catch].
  - exists l. split; [reflexivity|].
    assert (Hl : forall i a, l !! i = Some a ->
                   WeatherAlert.id a = "alert-" +:+ Z_to_string (Z.of_nat i)).
    { destruct r as [d|]; [|discriminate]. cbn in E.
      apply weatherAlerts_of_items in E as [->|[items E]]; [discriminate|].
      intros i a Hi.
      destruct (mapM_result_lookup _ _ _ _ _ _ E Hi) as (item & _ & Hitem).
      exact (alert_of_item_id _ _ _ Hitem). }
    split; [exact Hl|exact (Hids l Hl)].
  - exists []. split; [reflexivity|]. split; [discriminate|constructor].
Qed.

End SharedPayload.

(** ** Normalising a payload that conforms to the schema *)

Ltac conforms_inv :=
  repeat match goal with
         | H : prop_is _ _ _ = true |- _ => unfold prop_is in H
         | H : _ && _ = true |- _ => apply andb_prop in H; destruct H
         | H : match get_prop ?v ?k with _ => _ end = true |- _ =>
             let E := fresh "E" in destruct (get_prop v k) eqn:E; [|discriminate H]
         | H : match get_index ?v ?i with _ => _ end = true |- _ =>
             let E := fresh "E" in destruct (get_index v i) eqn:E; [|discriminate H]
         | H : is_string ?x = true |- _ => destruct x; try discriminate H; clear H
         | H : is_finite ?x = true |- _ =>
             destruct x as [| | |[|?]| | |]; try discriminate H; clear H
         end.

Ltac run_reads :=
  repeat (match goal with
          | E : ?lhs = Ok _ |- context [?lhs] => rewrite E
          end;
          cbn [mbind result_bind ToString round_value round_scaled div_value ToNumber]).

Section Conforming.

Variable StringToNumber : string -> num.

Lemma currentWeather_of_conforming (d : value) :
  conforms_WeatherResponse d = true ->
  exists v, currentWeather_of StringToNumber d = Ok v /\ complete_WeatherData v = true.
Proof.
  unfold conforms_WeatherResponse. intros H. conforms_inv.
  unfold currentWeather_of. run_reads.
  eexists. split; [reflexivity|]. reflexivity.
Qed.

(** X4.  When the request succeeds with a payload that conforms to the
    provider's schema in the fields the normaliser reads,
    [getCurrentWeather] returns the normalised payload, not the fallback,
    and the view model is complete: every field has the type the interface
    declares and no number is [NaN]. *)
Theorem getCurrentWeather_conforming (w : world) (c : gmap string cache_entry)
    (lat lon d : value) :
  snd (fetchWithCache w c "weather" (weather_params lat lon "current")) = Ok d ->
  conforms_WeatherResponse d = true ->
  exists v, snd (getCurrentWeather StringToNumber w c lat lon) = Ok v
    /\ currentWeather_of StringToNumber d = Ok v
    /\ complete_WeatherData v = true.
Proof.
  intros Hd Hc. destruct (currentWeather_of_conforming d Hc) as (v & Hv & Hcomplete).
  exists v. unfold getCurrentWeather.
  destruct (fetchWithCache w c "weather" _) as [c1 r]. cbn [snd] in *. subst r.
  cbn [mbind result_bind]. rewrite Hv. auto.
Qed.

End Conforming.

(** ** Unit conversions and percentages *)

Lemma Math_round_percent (q : Q) :
  (0 <= q)%Q -> (q <= 1)%Q ->
  exists z, Math_round (Fin (q * 100)) = num_of_Z z /\ 0 <= z <= 100.
Proof.
  intros H0 H1. exists (Qfloor (q * 100 + (1 # 2))). split; [reflexivity|]. split.
  - change 0 with (Qfloor 0). apply Qfloor_resp_le. nra.
  - assert (H : Qfloor (q * 100 + (1 # 2)) < 101); [|lia].
    rewrite Zlt_Qlt. eapply Qle_lt_trans; [apply Qfloor_le|].
    change (inject_Z 101) with 101%Q. nra.
Qed.

Section Conversions.

Variable StringToNumber : string -> num.
Variable LocalTZA : Z -> Z.
Variable toLocaleDateString : Date -> string.
Variable toLocaleTimeString : Date -> string.

Lemma div_value_number (q k : Q) (n : num) :
  ~ (k == 0)%Q ->
  div_value StringToNumber (VNum (Fin q)) k = Ok n ->
  exists r, n = Fin r /\ (r == q / k)%Q.
Proof.
  intros Hk H. unfold div_value in H. cbn in H.
  destruct (Qeq_bool k 0) eqn:E; [apply Qeq_bool_iff in E; contradiction|].
  injection H as <-. eexists. split; [reflexivity|]. apply Qred_correct.
Qed.

(** X5.  When the payload's [visibility] is the number [q] (metres), the
    [visibility] of the normalised current weather is [q / 1000]
    (kilometres), without rounding. *)
Theorem visibility_conversion (d : value) (q : Q) (v : WeatherData.t) :
  currentWeather_of StringToNumber d = Ok v ->
  get_prop d "visibility" = Ok (VNum (Fin q)) ->
  exists r, WeatherData.visibility v = Fin r /\ (r == q / 1000)%Q.
Proof.
  intros H Hvis. unfold currentWeather_of in H. do 16 bind_inv H.
  rewrite Hvis in E14. injection E14 as <-.
  bind_inv H.
  match goal with
  | Hd : div_value _ _ _ = Ok ?x |- _ =>
      apply div_value_number in Hd; [destruct Hd as (r & -> & Hr)|discriminate]
  end.
  do 7 bind_inv H.
  exists r. split; [|exact Hr]. injection H as <-. reflexivity.
Qed.

Lemma round_scaled_percent (q : Q) (n : num) :
  round_scaled StringToNumber (VNum (Fin q)) 100 = Ok n ->
  (0 <= q)%Q -> (q <= 1)%Q ->
  exists z, n = num_of_Z z /\ 0 <= z <= 100.
Proof.
  intros H H0 H1. apply (round_scaled_number StringToNumber) in H. subst n.
  apply Math_round_percent; assumption.
Qed.

(** X6.  A probability of precipitation [pop] between 0 and 1 in an item of
    the payload becomes a whole percentage between 0 and 100, in the
    hourly and in the daily forecast. *)
Theorem precipitation_percentage (item : value) (q : Q) :
  get_prop item "pop" = Ok (VNum (Fin q)) ->
  (0 <= q)%Q -> (q <= 1)%Q ->
  (forall h, hourly_of_item StringToNumber toLocaleTimeString item = Ok h ->
             exists z, HourlyForecast.precipitation h = num_of_Z z /\ 0 <= z <= 100)
  /\ (forall index e,
        daily_of_item StringToNumber LocalTZA toLocaleDateString index item = Ok e ->
        exists z, DailyForecast.precipitation e = num_of_Z z /\ 0 <= z <= 100).
Proof.
  intros Hpop H0 H1. split.
  - intros h H. unfold hourly_of_item in H. do 10 bind_inv H.
    rewrite Hpop in E8. injection E8 as <-.
    bind_inv H.
    match goal with
    | Hr : round_scaled _ _ _ = Ok ?x |- _ =>
        destruct (round_scaled_percent _ _ Hr H0 H1) as (z & -> & Hz)
    end.
    do 4 bind_inv H. exists z. split; [|exact Hz]. injection H as <-. reflexivity.
  - intros index e H. unfold daily_of_item in H. do 11 bind_inv H.
    rewrite Hpop in E9. injection E9 as <-.
    bind_inv H.
    match goal with
    | Hr : round_scaled _ _ _ = Ok ?x |- _ =>
        destruct (round_scaled_percent _ _ Hr H0 H1) as (z & -> & Hz)
    end.
    do 5 bind_inv H. exists z. split; [|exact Hz]. injection H as <-. reflexivity.
Qed.

End Conversions.

(** ** Ranges of the generated fallback values *)




Section FallbackRanges.

Variable LocalTZA : Z -> Z.
Variable toLocaleDateString : Date -> string.


End FallbackRanges.

(** ** Searching a city *)

(** Every request to the proxy fails. *)
Lemma fetchWithCache_proxy_down (w : world) (c : gmap string cache_entry)
    (endpoint : string) (params : list (string * value)) :
  no_fresh_entry w c ->
  (forall url, starts_with "/api/" url = true -> fetch_fails (fetch w url) = true) ->
  exists e, fetchWithCache w c endpoint params = (c, Throw e).
Proof.
  intros Hc Hf. unfold fetchWithCache.
  assert (Hmiss : exists e, fetch_and_store w c (getCacheKey endpoint params)
                              endpoint params = (c, Throw e)).
  { unfold fetch_and_store.
    destruct (URLSearchParams_toString params) as [qs|e]; [|eauto].
    match goal with |- context [fetch w ?u] =>
      specialize (Hf u eq_refl); destruct (fetch w u) as [e|ok st j] end; [eauto|].
    destruct ok; simpl in *; [|eauto].
    destruct j; [discriminate|eauto]. }
  destruct (c !! getCacheKey endpoint params) as [entry|] eqn:E; [|exact Hmiss].
  rewrite (Hc _ _ E). exact Hmiss.
Qed.

Lemma nonempty_has_length (g0 : value) (rest : list value) :
  (if negb (truthy (VArr (g0 :: rest))) then Ok true
   else get_prop (VArr (g0 :: rest)) "length" ≫= fun len => Ok (is_zero len))
  = Ok false.
Proof. reflexivity. Qed.

Section CitySearch.

Variable StringToNumber : string -> num.

Lemma getCurrentWeather_total w c lat lon :
  exists v, snd (getCurrentWeather StringToNumber w c lat lon) = Ok v.
Proof.
  unfold getCurrentWeather. destruct (fetchWithCache w c "weather" _) as [c' r].
  cbn [snd]. destruct (try_catch_total (r ≫= currentWeather_of StringToNumber)
                         (currentWeather_fallback lat lon)) as (v & Hv & _).
  eauto.
Qed.

(** X10.  When the geocoding request answers with a non-empty list whose
    first element carries a name and a country, [getWeatherByCity] succeeds
    whatever the weather request does: it returns the geocoded coordinates
    and a view model labelled with the geocoded name and country.  When the
    proxy is down and the cache has nothing fresh, that view model is the
    placeholder of [getCurrentWeather] under the real city's label, and the
    cache is unchanged. *)
Theorem city_search_survives_weather_outage (key : option string) (w : world)
    (c : gmap string cache_entry) (cityName st : string) (g0 : value)
    (rest : list value) (glat glon : value) (name country : string) :
  fetch w (geocodingUrl key cityName) = Response true st (Ok (VArr (g0 :: rest))) ->
  destructure_geocoding g0 = Ok (glat, glon, VStr name, VStr country) ->
  (exists c' weather,
      getWeatherByCity StringToNumber key w c cityName = (c', Ok (weather, (glat, glon)))
      /\ WeatherData.location weather = name +:+ ", " +:+ country)
  /\ (no_fresh_entry w c ->
      (forall url, starts_with "/api/" url = true -> fetch_fails (fetch w url) = true) ->
      getWeatherByCity StringToNumber key w c cityName
      = (c, Ok (WeatherData.mk (name +:+ ", " +:+ country) (num_of_Z 20) (VStr "Unknown")
                  (VNum (num_of_Z 50)) (num_of_Z 10) (num_of_Z 10) (num_of_Z 20)
                  (VStr "01d") (VNum (num_of_Z 1013)) (glat, glon),
                (glat, glon)))).
Proof.
  intros Hgeo Hg0.
  assert (Hrun : getWeatherByCity StringToNumber key w c cityName
                 = let '(c', r) := getCurrentWeather StringToNumber w c glat glon in
                   (c', match r with
                        | Ok weather =>
                            Ok (WeatherData.mk (name +:+ ", " +:+ country)
                                  (WeatherData.temperature weather)
                                  (WeatherData.condition weather)
                                  (WeatherData.humidity weather)
                                  (WeatherData.windSpeed weather)
                                  (WeatherData.visibility weather)
                                  (WeatherData.feelsLike weather)
                                  (WeatherData.icon weather)
                                  (WeatherData.pressure weather)
                                  (WeatherData.coordinates weather), (glat, glon))
                        | Throw e =>
                            Throw (Error ("Failed to get weather for " +:+ cityName
                                          +:+ ": " +:+ message e))
                        end)).
  { unfold getWeatherByCity, getWeatherByCity_try. rewrite Hgeo.
    cbn [negb]. rewrite nonempty_has_length.
    cbn [mbind result_bind get_index nth]. rewrite Hg0.
    destruct (getCurrentWeather StringToNumber w c glat glon) as [c' [weather|e]];
      reflexivity. }
  rewrite Hrun. split.
  - destruct (getCurrentWeather_total w c glat glon) as (weather & Hw).
    revert Hw. destruct (getCurrentWeather StringToNumber w c glat glon) as [c' r].
    cbn [snd]. intros ->. eauto.
  - intros Hc Hf. unfold getCurrentWeather.
    destruct (fetchWithCache_proxy_down w c "weather"
                (weather_params glat glon "current") Hc Hf) as [e ->].
    reflexivity.
Qed.

(** X11.  Whatever goes wrong in [getWeatherByCity], the caller gets an
    [Error] whose message is [Failed to get weather for <city>: ] followed
    by the message of the cause.  For a geocoding response that is not ok
    the cause names the provider's status text, so that text reaches the
    caller; for a failed request or an unreadable body it is the underlying
    error's message.  In these three cases the cache is untouched. *)
Theorem city_search_errors (key : option string) (w : world)
    (c : gmap string cache_entry) (cityName : string) :
  (forall e, snd (getWeatherByCity StringToNumber key w c cityName) = Throw e ->
             exists cause,
               e = Error ("Failed to get weather for " +:+ cityName +:+ ": " +:+ cause))
  /\ (forall err, fetch w (geocodingUrl key cityName) = NetworkFailure err ->
        getWeatherByCity StringToNumber key w c cityName
        = (c, Throw (Error ("Failed to get weather for " +:+ cityName +:+ ": "
                            +:+ message err))))
  /\ (forall st j, fetch w (geocodingUrl key cityName) = Response false st j ->
        getWeatherByCity StringToNumber key w c cityName
        = (c, Throw (Error ("Failed to get weather for " +:+ cityName +:+ ": "
                            +:+ "Failed to geocode city: " +:+ st))))
  /\ (forall st err,
        fetch w (geocodingUrl key cityName) = Response true st (Throw err) ->
        getWeatherByCity StringToNumber key w c cityName
        = (c, Throw (Error ("Failed to get weather for " +:+ cityName +:+ ": "
                            +:+ message err)))).
Proof.
  split; [|split; [|split]].
  - intros e. unfold getWeatherByCity.
    destruct (getWeatherByCity_try StringToNumber key w c cityName) as [c' [x|e0]];
      cbn [snd try_catch]; [discriminate|].
    intros [= <-]. eauto.
  - intros err H. unfold getWeatherByCity, getWeatherByCity_try. rewrite H. reflexivity.
  - intros st j H. unfold getWeatherByCity, getWeatherByCity_try. rewrite H. reflexivity.
  - intros st err H. unfold getWeatherByCity, getWeatherByCity_try. rewrite H.
    reflexivity.
Qed.

End CitySearch.

(** ** The size of the cache *)

Lemma length_append (a b : string) :
  String.length (a +:+ b) = (String.length a + String.length b)%nat.
Proof. induction a as [|x a IH]; simpl; [reflexivity|]. rewrite IH. reflexivity. Qed.

(** The length of a joined list is that of its parts plus the separators. *)
Lemma length_join (sep : string) (l : list string) :
  String.length (join sep l)
  = (list_sum (map String.length l) + String.length sep * pred (length l))%nat.
Proof.
  induction l as [|x r IH]; [simpl; lia|].
  destruct r as [|y r]; [simpl; lia|].
  change (join sep (x :: y :: r)) with (x +:+ sep +:+ join sep (y :: r)).
  rewrite !length_append, IH. simpl. lia.
Qed.

Lemma list_sum_perm (l l' : list nat) : l ≡ₚ l' -> list_sum l = list_sum l'.
Proof. induction 1; simpl; lia. Qed.

Lemma array_text_members (l : list value) :
  array_text l
  = "[" +:+ join "," (map (fun x => default "null" (JSON_stringify x)) l) +:+ "]".
Proof. reflexivity. Qed.

(** The length of the text of an array does not depend on the order of its
    elements. *)
Lemma array_text_length_perm (l l' : list value) :
  l ≡ₚ l' -> String.length (array_text l) = String.length (array_text l').
Proof.
  intros Hp. rewrite !array_text_members, !length_append, !length_join, !length_map.
  rewrite (Permutation_length Hp).
  rewrite (list_sum_perm _ (map String.length
             (map (fun x => default "null" (JSON_stringify x)) l'))); [reflexivity|].
  do 2 apply Permutation_map. exact Hp.
Qed.

Lemma fetchWithCache_writes_at_most_one w c e p :
  fst (fetchWithCache w c e p) = c
  \/ exists d, fst (fetchWithCache w c e p)
               = <[getCacheKey e p := mkEntry d (now_write w)]> c.
Proof.
  destruct (fetchWithCache w c e p) as [c1 r] eqn:E. cbn [fst].
  unfold fetchWithCache in E.
  assert (Hfs : forall c1 r, fetch_and_store w c (getCacheKey e p) e p = (c1, r) ->
            c1 = c \/ exists d, c1 = <[getCacheKey e p := mkEntry d (now_write w)]> c).
  { clear E. intros c2 r2 H. destruct r2 as [d|err].
    - right. exists d. eapply fetch_and_store_writes, H.
    - left. unfold fetch_and_store in H.
      destruct (URLSearchParams_toString p) as [qs|err']; [|congruence].
      match type of H with context [fetch w ?u] =>
        destruct (fetch w u) as [err'|ok st j] end; [congruence|].
      destruct ok; simpl in H; [|congruence].
      destruct j as [d|err']; congruence. }
  destruct (c !! getCacheKey e p) as [cached|]; [|eauto].
  destruct (negb (isDataExpired (now_read w) (timestamp cached))); [left; congruence|eauto].
Qed.

Section CacheSize.

Variable StringToNumber : string -> num.
Variable LocalTZA : Z -> Z.
Variable toLocaleDateString : Date -> string.
Variable toLocaleTimeString : Date -> string.

(** X12.  [getCacheStatus] after [clearCache] reports no entry and a text
    of two characters; a call of the service adds at most one entry to the
    count; the reported size is the length of the JSON text of the values
    in whatever order they are listed, never below two; and a
    [fetchWithCache] for a key already present, fresh or expired, leaves
    the count as it is. *)
Theorem cache_status (w : world) (o : op) (c : gmap string cache_entry) :
  getCacheStatus (clearCache c) = CacheStatus.mk 0 2
  /\ (CacheStatus.entries
        (getCacheStatus (run_op StringToNumber LocalTZA toLocaleDateString toLocaleTimeString w o c))
      <= S (CacheStatus.entries (getCacheStatus c)))%nat
  /\ (forall kvs : list (string * cache_entry),
        kvs ≡ₚ map_to_list c ->
        CacheStatus.size (getCacheStatus c)
        = String.length (array_text (map (fun kv => entry_value (snd kv)) kvs)))
  /\ (2 <= CacheStatus.size (getCacheStatus c))%nat
  /\ (forall endpoint params,
        is_Some (c !! getCacheKey endpoint params) ->
        CacheStatus.entries (getCacheStatus (fst (fetchWithCache w c endpoint params)))
        = CacheStatus.entries (getCacheStatus c)).
Proof.
  split; [|split; [|split; [|split]]].
  - unfold getCacheStatus, clearCache. rewrite map_size_empty, map_to_list_empty.
    reflexivity.
  - cbn [getCacheStatus CacheStatus.entries].
    assert (Hfetch : forall e p, (base.size (fst (fetchWithCache w c e p))
                                  <= S (base.size c))%nat).
    { intros e p. destruct (fetchWithCache_writes_at_most_one w c e p) as [->|[d ->]];
        [lia|]. rewrite map_size_insert.
      destruct (c !! getCacheKey e p); simpl; lia. }
    destruct o as [lat lon|lat lon|lat lon|lat lon|key cityName|]; cbn [run_op].
    + unfold getCurrentWeather. rewrite fetcher_cache. apply Hfetch.
    + unfold getHourlyForecast. rewrite fetcher_cache. apply Hfetch.
    + unfold getDailyForecast. rewrite fetcher_cache. apply Hfetch.
    + unfold getWeatherAlerts. rewrite fetcher_cache. apply Hfetch.
    + destruct (getWeatherByCity_cache StringToNumber key w c cityName)
        as [->|(lat & lon & ->)]; [lia|apply Hfetch].
    + unfold clearCache. rewrite map_size_empty. lia.
  - intros kvs Hp. cbn [getCacheStatus CacheStatus.size].
    apply array_text_length_perm, Permutation_map. symmetry. exact Hp.
  - cbn [getCacheStatus CacheStatus.size].
    rewrite array_text_members, !length_append. simpl. lia.
  - intros e p [entry He]. cbn [getCacheStatus CacheStatus.entries].
    destruct (fetchWithCache_writes_at_most_one w c e p) as [->|[d ->]];
      [reflexivity|]. rewrite map_size_insert, He. reflexivity.
Qed.

End CacheSize.

(** ** More on the proxy route *)

(** X13.  A request that fails validation is answered without the network:
    when [lat] or [lon] is missing, the key is not configured or the type is
    not one of the three, the response is the same whatever the upstream
    would do.  The checks run in that order: missing coordinates give the
    400 about coordinates whatever the key and the type are, and with
    coordinates present a missing key gives the 500 about the key whatever
    the type is. *)
Theorem GET_validation_offline (key : option string)
    (fetch1 fetch2 : string -> fetch_result) (query : list (string * string)) :
  (Route.present (Route.searchParams_get "lat" query) = false
   \/ Route.present (Route.searchParams_get "lon" query) = false
   \/ Route.present key = false
   \/ ~ In (Route.requested_type query) ["current"; "forecast"; "onecall"] ->
   Route.GET key fetch1 query = Route.GET key fetch2 query)
  /\ (Route.present (Route.searchParams_get "lat" query) = false
      \/ Route.present (Route.searchParams_get "lon" query) = false ->
      Route.GET key fetch1 query
      = Ok (Route.error_response "Latitude and longitude are required" 400))
  /\ (Route.present (Route.searchParams_get "lat" query) = true ->
      Route.present (Route.searchParams_get "lon" query) = true ->
      Route.present key = false ->
      Route.GET key fetch1 query
      = Ok (Route.error_response "OpenWeatherMap API key is not configured" 500)).
Proof.
  unfold Route.GET, Route.GET_try.
  destruct (Route.present (Route.searchParams_get "lat" query));
    [|repeat split; intros; try reflexivity; discriminate].
  destruct (Route.present (Route.searchParams_get "lon" query));
    [|repeat split; intros; try reflexivity; discriminate].
  destruct (Route.present key);
    [|repeat split; intros; try reflexivity; intuition discriminate].
  cbn [negb orb].
  split; [|split; [intuition discriminate|discriminate]].
  intros [H|[H|[H|H]]]; try discriminate.
  destruct (String.eqb_spec (Route.requested_type query) "current") as [E|_];
    [exfalso; apply H; rewrite E; simpl; auto|].
  destruct (String.eqb_spec (Route.requested_type query) "forecast") as [E|_];
    [exfalso; apply H; rewrite E; simpl; auto|].
  destruct (String.eqb_spec (Route.requested_type query) "onecall") as [E|_];
    [exfalso; apply H; rewrite E; simpl; auto|].
  reflexivity.
Qed.

(** X14.  The three CORS headers that [OPTIONS] announces are set on a
    [GET] response exactly when it is the 200 that carries the provider's
    payload; every error response of [GET], 400 or 500, carries none. *)
Theorem GET_cors_only_on_success (key : option string)
    (fetch : string -> fetch_result) (query : list (string * string))
    (r : Route.response) :
  Route.GET key fetch query = Ok r ->
  (Route.status r = 200 -> Route.headers r = Route.headers OPTIONS)
  /\ (Route.status r <> 200 -> Route.headers r = [])
  /\ Route.status OPTIONS = 200
  /\ length (Route.headers OPTIONS) = 3%nat.
Proof.
  unfold Route.GET, Route.GET_try.
  assert (Hup : forall url,
    try_catch (Route.upstream fetch url ≫= fun d =>
                 Ok (Route.mkResponse 200 d Route.cors_headers))
      (fun _ => Ok (Route.error_response "Failed to fetch weather data" 500)) = Ok r ->
    (Route.status r = 200 -> Route.headers r = Route.headers OPTIONS)
    /\ (Route.status r <> 200 -> Route.headers r = [])
    /\ Route.status OPTIONS = 200
    /\ length (Route.headers OPTIONS) = 3%nat).
  { intros url. destruct (Route.upstream fetch url) as [d|e]; cbn;
      intros [= <-]; cbn; repeat split; congruence. }
  destruct (Route.present (Route.searchParams_get "lat" query));
    [|intros [= <-]; cbn; repeat split; congruence].
  destruct (Route.present (Route.searchParams_get "lon" query));
    [|intros [= <-]; cbn; repeat split; congruence].
  destruct (Route.present key); [|intros [= <-]; cbn; repeat split; congruence].
  cbn [negb orb].
  destruct (String.eqb (Route.requested_type query) "current"); [apply Hup|].
  destruct (String.eqb (Route.requested_type query) "forecast"); [apply Hup|].
  destruct (String.eqb (Route.requested_type query) "onecall"); [apply Hup|].
  intros [= <-]; cbn; repeat split; congruence.
Qed.

(** ** More on the search handler *)

Lemma trim_start_blank (s : string) :
  all_whitespace s = true <-> Page.trim_start s = "".
Proof.
  induction s as [|c r IH]; simpl; [tauto|].
  destruct (Page.is_whitespace c); simpl; [exact IH|]. split; discriminate.
Qed.

Lemma trim_start_head (s : string) :
  match Page.trim_start s with
  | EmptyString => True
  | String c _ => Page.is_whitespace c = false
  end.
Proof.
  induction s as [|c r IH]; simpl; [exact I|].
  destruct (Page.is_whitespace c) eqn:E; [exact IH|exact E].
Qed.

Lemma trim_blank (s : string) : all_whitespace s = true <-> Page.trim s = "".
Proof.
  rewrite trim_start_blank. unfold Page.trim. split; [intros ->; reflexivity|].
  pose proof (trim_start_head s) as Hh.
  destruct (Page.trim_start s) as [|c r]; [reflexivity|].
  simpl. rewrite Hh. discriminate.
Qed.

(** A fetcher built on [fetchWithCache] with a constant fallback returns a
    value. *)
Lemma fetcher_returns {A} w c e p (k : value -> result A) (fallback : A) :
  exists c1 v, (let '(c', r) := fetchWithCache w c e p in
                (c', try_catch (r ≫= k) (fun _ => Ok fallback))) = (c1, Ok v).
Proof.
  destruct (fetchWithCache w c e p) as [c' r].
  destruct (try_catch_total (r ≫= k) fallback) as (v & Hv & _). rewrite Hv. eauto.
Qed.

Lemma filter_In_nonempty {A} (f : A -> bool) (l : list A) (x : A) :
  In x l -> f x = true -> List.filter f l <> [].
Proof.
  intros Hin Hx E. assert (H : In x (List.filter f l)) by (apply filter_In; auto).
  rewrite E in H. destruct H.
Qed.

Section SearchHandler.

Variable StringToNumber : string -> num.
Variable LocalTZA : Z -> Z.
Variable toLocaleDateString : Date -> string.
Variable toLocaleTimeString : Date -> string.

(** What [handleSearch] does after a failed lookup. *)
Lemma handleSearch_failed key w0 w1 w2 w3 s c0 e :
  Page.trim (Page.searchQuery s) <> "" ->
  getWeatherByCity StringToNumber key w0 (Page.cache s) (Page.searchQuery s)
    = (c0, Throw e) ->
  Page.handleSearch StringToNumber LocalTZA toLocaleDateString toLocaleTimeString
    key w0 w1 w2 w3 s
  = Page.setLoading false
      (Page.search_failed e
         (Page.with_cache c0 (Page.setSearchError None (Page.setLoading true s)))).
Proof.
  intros Hq Hr. unfold Page.handleSearch.
  apply String.eqb_neq in Hq. rewrite Hq.
  cbn [Page.cache Page.searchQuery Page.setSearchError Page.setLoading].
  rewrite Hr. reflexivity.
Qed.

(** X15.  [handleSearch] ignores a query exactly when it consists of white
    space only (or is empty): the state, cache included, is returned as it
    was.  For every other query it ends with the loading flag off, whether
    the search succeeded or failed. *)
Theorem handleSearch_blank_or_done (key : option string) (w0 w1 w2 w3 : world)
    (s : Page.state) :
  let s' := Page.handleSearch StringToNumber LocalTZA toLocaleDateString
              toLocaleTimeString key w0 w1 w2 w3 s in
  (all_whitespace (Page.searchQuery s) = true -> s' = s)
  /\ (all_whitespace (Page.searchQuery s) = false -> Page.loading s' = false).
Proof.
  intros s'. subst s'. split.
  - intros H. apply trim_blank in H. unfold Page.handleSearch. rewrite H. reflexivity.
  - intros H. unfold Page.handleSearch.
    destruct (String.eqb_spec (Page.trim (Page.searchQuery s)) "") as [E|_];
      [apply trim_blank in E; congruence|].
    repeat match goal with
           | |- context [let '(_, _) := ?x in _] => destruct x
           | |- context [match ?x with Ok _ => _ | Throw _ => _ end] => destruct x
           end; reflexivity.
Qed.

(** X16.  Whenever the city lookup of a search fails, for whatever reason,
    [handleSearch] leaves the four displayed view models, the user location
    and the typed query as they were, shows the message of the error and
    schedules one timer, 3000 ms ahead, that clears it. *)
Theorem handleSearch_any_failure (key : option string) (w0 w1 w2 w3 : world)
    (s : Page.state) (e : exn) :
  Page.trim (Page.searchQuery s) <> "" ->
  snd (getWeatherByCity StringToNumber key w0 (Page.cache s) (Page.searchQuery s))
    = Throw e ->
  let s' := Page.handleSearch StringToNumber LocalTZA toLocaleDateString
              toLocaleTimeString key w0 w1 w2 w3 s in
  displayed s' = displayed s
  /\ Page.userLocation s' = Page.userLocation s
  /\ Page.searchQuery s' = Page.searchQuery s
  /\ Page.searchError s' = Some (message e)
  /\ Page.timers s' = (Page.timers s ++ [(3000, Page.ClearSearchError)])%list
  /\ Page.loading s' = false.
Proof.
  intros Hq Hr s'. subst s'.
  destruct (getWeatherByCity StringToNumber key w0 (Page.cache s) (Page.searchQuery s))
    as [c0 r] eqn:E. cbn [snd] in Hr. subst r.
  rewrite (handleSearch_failed _ _ _ _ _ _ _ _ Hq E). repeat split.
Qed.

(** X18.  The message of a failed search can vanish before its own 3000 ms
    have passed: if a timer of an earlier failure is still pending with [d]
    milliseconds to go, the new message is cleared after [d] milliseconds. *)
Theorem stale_timer_clears_new_message (key : option string) (w0 w1 w2 w3 : world)
    (s : Page.state) (e : exn) (d : Z) :
  Page.trim (Page.searchQuery s) <> "" ->
  snd (getWeatherByCity StringToNumber key w0 (Page.cache s) (Page.searchQuery s))
    = Throw e ->
  In (d, Page.ClearSearchError) (Page.timers s) ->
  0 <= d < 3000 ->
  let s' := Page.handleSearch StringToNumber LocalTZA toLocaleDateString
              toLocaleTimeString key w0 w1 w2 w3 s in
  Page.searchError s' = Some (message e)
  /\ Page.searchError (Page.elapse d s') = None.
Proof.
  intros Hq Hr Hin Hd s'. subst s'.
  destruct (getWeatherByCity StringToNumber key w0 (Page.cache s) (Page.searchQuery s))
    as [c0 r] eqn:E. cbn [snd] in Hr. subst r.
  rewrite (handleSearch_failed _ _ _ _ _ _ _ _ Hq E). split; [reflexivity|].
  unfold Page.elapse. rewrite run_callbacks_searchError.
  cbn [Page.timers Page.setLoading Page.search_failed Page.setTimeout
       Page.setSearchError Page.with_cache Page.searchError].
  assert (Hne : List.filter (fun t : Z * Page.timer_callback => fst t <=? d)
                  (Page.timers s ++ [(3000, Page.ClearSearchError)])%list <> []).
  { eapply (filter_In_nonempty _ _ (d, Page.ClearSearchError)).
    - apply in_or_app. left. exact Hin.
    - apply Z.leb_refl. }
  destruct (List.filter _ (Page.timers s ++ _)%list); [congruence|reflexivity].
Qed.

End SearchHandler.

Section SearchSuccess.

Variable StringToNumber : string -> num.
Variable LocalTZA : Z -> Z.
Variable toLocaleDateString : Date -> string.
Variable toLocaleTimeString : Date -> string.


End SearchSuccess.

(** ** Temperature units *)




(** ** The first load of the page *)

Section FirstLoad.

Variable StringToNumber : string -> num.
Variable LocalTZA : Z -> Z.
Variable toLocaleDateString : Date -> string.
Variable toLocaleTimeString : Date -> string.

(** The state [fetchWeatherData] ends in: the outer [catch] never runs. *)
Lemma fetchWeatherData_run g w1 w2 w3 w4 lat lon s clat clon s1 :
  choose_coordinates g lat lon (Page.setLoading true s) = ((clat, clon), s1) ->
  exists c1 cw c2 h c3 d c4 a,
    getCurrentWeather StringToNumber w1 (Page.cache s1) clat clon = (c1, Ok cw)
    /\ getHourlyForecast StringToNumber toLocaleTimeString w2 c1 clat clon = (c2, Ok h)
    /\ getDailyForecast StringToNumber LocalTZA toLocaleDateString w3 c2 clat clon
       = (c3, Ok d)
    /\ getWeatherAlerts StringToNumber w4 c3 clat clon = (c4, Ok a)
    /\ fetchWeatherData StringToNumber LocalTZA toLocaleDateString toLocaleTimeString g w1 w2 w3 w4 lat lon s
       = Page.setLoading false
           (let shown := Page.setAlerts a
                           (Page.setDailyForecast d
                              (Page.setHourlyForecast h
                                 (Page.setWeather (Some cw) (Page.with_cache c4 s1)))) in
            match Page.userLocation s with
            | None => Page.setUserLocation
                        (Some (clat, clon, WeatherData.location cw)) shown
            | Some _ => shown
            end).
Proof.
  intros Hc.
  destruct (fetcher_returns w1 (Page.cache s1) "weather"
              (weather_params clat clon "current")
              (currentWeather_of StringToNumber) (currentWeather_fallback clat clon))
    as (c1 & cw & Hcw).
  destruct (fetcher_returns w2 c1 "weather" (weather_params clat clon "forecast")
              (hourlyForecast_of StringToNumber toLocaleTimeString)
              (hourlyForecast_fallback w2)) as (c2 & h & Hh).
  destruct (fetcher_returns w3 c2 "weather" (weather_params clat clon "onecall")
              (dailyForecast_of StringToNumber LocalTZA toLocaleDateString)
              (dailyForecast_fallback LocalTZA toLocaleDateString w3))
    as (c3 & d & Hd).
  destruct (fetcher_returns w4 c3 "weather" (weather_params clat clon "onecall")
              (weatherAlerts_of StringToNumber) []) as (c4 & a & Ha).
  exists c1, cw, c2, h, c3, d, c4, a.
  change (getCurrentWeather StringToNumber w1 (Page.cache s1) clat clon = (c1, Ok cw))
    in Hcw.
  change (getHourlyForecast StringToNumber toLocaleTimeString w2 c1 clat clon
          = (c2, Ok h)) in Hh.
  change (getDailyForecast StringToNumber LocalTZA toLocaleDateString w3 c2 clat clon
          = (c3, Ok d)) in Hd.
  change (getWeatherAlerts StringToNumber w4 c3 clat clon = (c4, Ok a)) in Ha.
  repeat (split; [assumption|]).
  unfold fetchWeatherData. rewrite Hc, Hcw, Hh, Hd, Ha. reflexivity.
Qed.

Lemma choose_coordinates_spec g lat lon s :
  exists clat clon s1,
    choose_coordinates g lat lon s = ((clat, clon), s1)
    /\ Page.cache s1 = Page.cache s
    /\ displayed s1 = displayed s
    /\ (truthy lat && truthy lon = true ->
        (clat, clon) = (lat, lon) /\ s1 = s)
    /\ (truthy lat && truthy lon = false ->
        match g with
        | GeolocationPosition a b =>
            (clat, clon) = (VNum a, VNum b)
            /\ Page.userLocation s1 = Some (VNum a, VNum b, "Current Location")
        | _ =>
            (clat, clon) = (default_lat, default_lon)
            /\ Page.userLocation s1
               = Some (default_lat, default_lon, "San Francisco, CA")
        end).
Proof.
  unfold choose_coordinates.
  destruct (truthy lat), (truthy lon); cbn [negb orb andb];
    destruct g; cbn [getCurrentPosition]; do 3 eexists;
    repeat split; discriminate.
Qed.


(** X21.  The label of the user location after [fetchWeatherData].  When
    the page had no user location (the first load), the label set from the
    device position or the default city is replaced by the location of the
    weather that was fetched, which is [Unknown Location] when the proxy is
    down.  When the page had one, it is kept if coordinates were passed,
    and otherwise becomes [Current Location] at the device position or
    [San Francisco, CA] at the default coordinates. *)
Theorem fetchWeatherData_label (g : geolocation) (w1 w2 w3 w4 : world)
    (lat lon : value) (s : Page.state) :
  let s' := fetchWeatherData StringToNumber LocalTZA toLocaleDateString toLocaleTimeString g w1 w2 w3 w4 lat lon s in
  (Page.userLocation s = None ->
   (exists clat clon cw,
       Page.weather s' = Some cw
       /\ Page.userLocation s' = Some (clat, clon, WeatherData.location cw))
   /\ (no_fresh_entry w1 (Page.cache s) ->
       (forall url, starts_with "/api/" url = true ->
                    fetch_fails (fetch w1 url) = true) ->
       exists clat clon,
         Page.userLocation s' = Some (clat, clon, "Unknown Location")))
  /\ (forall u, Page.userLocation s = Some u ->
       (truthy lat && truthy lon = true -> Page.userLocation s' = Some u)
       /\ (truthy lat && truthy lon = false ->
           Page.userLocation s'
           = match g with
             | GeolocationPosition a b => Some (VNum a, VNum b, "Current Location")
             | _ => Some (default_lat, default_lon, "San Francisco, CA")
             end)).
Proof.
  intros s'. subst s'.
  destruct (choose_coordinates_spec g lat lon (Page.setLoading true s))
    as (clat & clon & s1 & Hc & Hcache & _ & Hyes & Hno).
  destruct (fetchWeatherData_run g w1 w2 w3 w4 lat lon s clat clon s1 Hc)
    as (c1 & cw & c2 & h & c3 & d & c4 & a & Hcw & _ & _ & _ & Hrun).
  rewrite Hrun. split.
  - intros Hnone. rewrite Hnone. split.
    + exists clat, clon, cw. split; reflexivity.
    + intros Hstale Hdown. exists clat, clon.
      rewrite Hcache in Hcw. cbn [Page.cache Page.setLoading] in Hcw.
      unfold getCurrentWeather in Hcw.
      destruct (fetchWithCache_proxy_down w1 (Page.cache s) "weather"
                  (weather_params clat clon "current") Hstale Hdown) as [e He].
      rewrite He in Hcw. cbn in Hcw. injection Hcw as _ <-. reflexivity.
  - intros u Hu. rewrite Hu. cbn [Page.userLocation Page.setLoading Page.setAlerts
      Page.setDailyForecast Page.setHourlyForecast Page.setWeather Page.with_cache].
    split.
    + intros Ht. destruct (Hyes Ht) as [_ ->]. exact Hu.
    + intros Hf. specialize (Hno Hf). destruct g; tauto.
Qed.

End FirstLoad.

(** ** The alerts component *)



(** X23.  Toggling a location alert flips the [enabled] flag of the alerts
    with that identifier (all of them, if several share it) and changes
    nothing else: identifiers, order and the other alerts stay.  Toggling
    twice restores the list. *)
Theorem toggleLocationAlert_involutive (alertId : string) (l : list LocationAlert.t) :
  toggleLocationAlert alertId (toggleLocationAlert alertId l) = l
  /\ map LocationAlert.id (toggleLocationAlert alertId l) = map LocationAlert.id l
  /\ (forall i a, l !! i = Some a ->
        exists b, toggleLocationAlert alertId l !! i = Some b
          /\ LocationAlert.enabled b
             = (if String.eqb (LocationAlert.id a) alertId
                then negb (LocationAlert.enabled a) else LocationAlert.enabled a)
          /\ (LocationAlert.id a <> alertId -> b = a)).
Proof.
  split; [|split].
  - unfold toggleLocationAlert. rewrite map_map. rewrite <- (map_id l) at 2.
    apply map_ext. intros [i loc la ln ty en]. simpl.
    destruct (String.eqb i alertId) eqn:E; simpl; rewrite E; [|reflexivity].
    rewrite negb_involutive. reflexivity.
  - unfold toggleLocationAlert. rewrite map_map. apply map_ext. intros a.
    destruct (String.eqb (LocationAlert.id a) alertId); reflexivity.
  - intros i a Hi. unfold toggleLocationAlert.
    change (map ?f l) with (f <$> l). rewrite list_lookup_fmap, Hi. simpl.
    eexists. split; [reflexivity|].
    destruct (String.eqb_spec (LocationAlert.id a) alertId); simpl;
      split; congruence.
Qed.

(** X24.  The page passes its user location with the fields [lat], [lon]
    and [city], while the component reads [lat], [lng] and [city].  So every
    location alert that [addLocationAlert] builds from the page's location
    has an [undefined] longitude, and formatting its coordinates line
    throws; without a user location [addLocationAlert] adds nothing. *)
Theorem addLocationAlert_from_page (u : option (value * value * string)) (now : Z)
    (prev : list LocationAlert.t) :
  match u with
  | None => addLocationAlert (userLocation_prop u) now prev = prev
  | Some (lat, lon, city) =>
      exists a, addLocationAlert (userLocation_prop u) now prev = (prev ++ [a])%list
        /\ LocationAlert.id a = Z_to_string now
        /\ LocationAlert.location a = VStr city
        /\ LocationAlert.lat a = lat
        /\ LocationAlert.lng a = VUndef
        /\ LocationAlert.enabled a = true
        /\ is_ok (coordinates_label a) = false
  end.
Proof.
  destruct u as [[[lat lon] city]|]; [|reflexivity].
  eexists. split; [reflexivity|]. cbn. repeat split.
  unfold coordinates_label. cbn.
  destruct (call_toFixed2 lat); reflexivity.
Qed.

(** * Concrete runs *)

Lemma fetchWithCache_expiry_witness :
  let params := weather_params Sample.lat Sample.lon "current" in
  let key := getCacheKey "weather" params in
  let c : gmap string cache_entry := {[ key := mkEntry Sample.current_payload 1000 ]} in
  c !! key = Some (mkEntry Sample.current_payload 1000)
  /\ fetchWithCache (Sample.world_with Sample.outage 601000) c "weather" params
     = (c, Ok Sample.current_payload)
  /\ snd (fetchWithCache (Sample.world_with Sample.outage 601001) c "weather" params)
     = snd (fetchWithCache (Sample.world_with Sample.outage 601001) (delete key c)
              "weather" params).
Proof.
  intros params key c.
  assert (H : c !! key = Some (mkEntry Sample.current_payload 1000))
    by apply lookup_singleton_eq.
  split; [exact H|]. split.
  - apply (fetchWithCache_expiry (Sample.world_with Sample.outage 601000)
             c "weather" params Sample.current_payload 1000 H).
    simpl. lia.
  - apply (fetchWithCache_expiry (Sample.world_with Sample.outage 601001)
             c "weather" params Sample.current_payload 1000 H).
    simpl. lia.
Defined.

(** C1 as the specification states it fails: the same two pairs, inserted in
    the two possible orders, give two different keys. *)
Lemma getCacheKey_order_counterexample :
  let P1 := [("lat", Sample.lat); ("lon", Sample.lon)] in
  let P2 := [("lon", Sample.lon); ("lat", Sample.lat)] in
  P1 ≡ₚ P2
  /\ getCacheKey "weather" P1 = "weather-{" +:+ json_quote "lat" +:+ ":37.7749,"
                                 +:+ json_quote "lon" +:+ ":-122.4194}"
  /\ getCacheKey "weather" P2 = "weather-{" +:+ json_quote "lon" +:+ ":-122.4194,"
                                 +:+ json_quote "lat" +:+ ":37.7749}"
  /\ getCacheKey "weather" P1 <> getCacheKey "weather" P2.
Proof.
  intros P1 P2. split; [apply perm_swap|].
  split; [vm_compute; reflexivity|].
  split; [vm_compute; reflexivity|].
  vm_compute. discriminate.
Qed.

Lemma getCacheKey_order_sensitive_witness :
  first_serialised_name [("lat", Sample.lat); ("lon", Sample.lon)]
  <> first_serialised_name [("lon", Sample.lon); ("lat", Sample.lat)]
  /\ getCacheKey "weather" [("lat", Sample.lat); ("lon", Sample.lon)]
     <> getCacheKey "weather" [("lon", Sample.lon); ("lat", Sample.lat)].
Proof.
  assert (H : first_serialised_name [("lat", Sample.lat); ("lon", Sample.lon)]
              <> first_serialised_name [("lon", Sample.lon); ("lat", Sample.lat)])
    by (vm_compute; discriminate).
  split; [exact H|].
  exact (proj2 (getCacheKey_order_sensitive "weather" _ _) H).
Defined.



Lemma alert_classification_witness :
  let alert := Sample.alert_item "Severe Thunderstorm Warning" in
  exists a, alert_of_item Sample.StringToNumber 0 alert = Ok a
    /\ exists ev, get_prop alert "event" = Ok (VStr ev)
         /\ WeatherAlert.title a = VStr ev
         /\ WeatherAlert.category a = first_match category_rules other (toLowerCase ev)
         /\ (WeatherAlert.type a, WeatherAlert.severity a)
            = first_match type_rules (minor, 3) (toLowerCase ev)
         /\ WeatherAlert.severity a = severity_score (WeatherAlert.type a).
Proof.
  intros alert. eexists. split; [vm_compute; reflexivity|].
  apply (proj1 (alert_classification Sample.StringToNumber) 0%nat alert).
  vm_compute. reflexivity.
Defined.

Lemma search_not_found_witness :
  let w := Sample.world_with Sample.no_city 1700000000000 in
  let s' := Page.handleSearch Sample.StringToNumber Sample.LocalTZA
              Sample.toLocaleDateString Sample.toLocaleTimeString None w w w w
              Sample.page in
  Page.trim (Page.searchQuery Sample.page) <> ""
  /\ fetch w (geocodingUrl None (Page.searchQuery Sample.page))
     = Response true "OK" (Ok (VArr []))
  /\ displayed s' = displayed Sample.page
  /\ Page.searchError s' = Some (not_found_message "Atlantis")
  /\ Page.searchError (Page.elapse 3000 s') = None.
Proof.
  intros w s'.
  assert (Hq : Page.trim (Page.searchQuery Sample.page) <> "")
    by (vm_compute; discriminate).
  assert (Hgeo : fetch w (geocodingUrl None (Page.searchQuery Sample.page))
                 = Response true "OK" (Ok (VArr []))) by reflexivity.
  split; [exact Hq|]. split; [exact Hgeo|].
  destruct (search_not_found Sample.StringToNumber Sample.LocalTZA
              Sample.toLocaleDateString Sample.toLocaleTimeString
              None w w w w Sample.page "OK" Hq Hgeo)
    as (_ & Hd & He & _ & _ & Hclear & _).
  split; [exact Hd|]. split; [exact He|]. exact Hclear.
Defined.


Lemma GET_responses_witness :
  let fetch := fun _ : string => Sample.outage in
  let query := [("lat", "37.7749"); ("lon", "-122.4194"); ("type", "forecast")] in
  (forall url, fetch_fails (fetch url) = true)
  /\ Route.GET (Some "secret") fetch query
     = Ok (Route.error_response "Failed to fetch weather data" 500).
Proof.
  intros fetch query.
  assert (Hf : forall url, fetch_fails (fetch url) = true) by reflexivity.
  split; [exact Hf|].
  apply (proj2 (GET_responses (Some "secret") fetch query));
    [reflexivity|reflexivity|reflexivity| |exact Hf].
  right. left. reflexivity.
Defined.


Lemma cache_holds_upstream_payloads_witness :
  let w1 := Sample.world_with (Sample.ok_with Sample.current_payload) 1700000000000 in
  let w2 := Sample.world_with Sample.outage 1700000001000 in
  let trace := [(w1, CallCurrentWeather Sample.lat Sample.lon);
                (w2, CallHourlyForecast Sample.lat Sample.lon)] in
  let c := run_ops Sample.StringToNumber Sample.LocalTZA Sample.toLocaleDateString
             Sample.toLocaleTimeString trace ∅ in
  c !! getCacheKey "weather" (weather_params Sample.lat Sample.lon "current")
    = Some (mkEntry Sample.current_payload 1700000000000)
  /\ from_upstream [w1; w2] c
  /\ run_op Sample.StringToNumber Sample.LocalTZA Sample.toLocaleDateString
       Sample.toLocaleTimeString w2 (CallDailyForecast Sample.lat Sample.lon) c
     = c.
Proof.
  intros w1 w2 trace c.
  split; [vm_compute; reflexivity|].
  destruct (cache_holds_upstream_payloads Sample.StringToNumber Sample.LocalTZA
              Sample.toLocaleDateString Sample.toLocaleTimeString trace)
    as (Hc & _ & Hfail).
  split; [exact Hc|].
  apply Hfail; [reflexivity|discriminate].
Defined.

Lemma fetchWithCache_store_then_read_witness :
  let params := weather_params Sample.lat Sample.lon "current" in
  let w1 := Sample.world_with (Sample.ok_with Sample.current_payload) 1700000000000 in
  let w2 := Sample.world_with Sample.outage 1700000600000 in
  let c1 : gmap string cache_entry :=
    {[ getCacheKey "weather" params := mkEntry Sample.current_payload 1700000000000 ]} in
  fetchWithCache w1 ∅ "weather" params = (c1, Ok Sample.current_payload)
  /\ fetchWithCache w2 c1 "weather" params = (c1, Ok Sample.current_payload).
Proof.
  intros params w1 w2 c1.
  assert (H1 : fetchWithCache w1 ∅ "weather" params = (c1, Ok Sample.current_payload))
    by (vm_compute; reflexivity).
  split; [exact H1|].
  apply (fetchWithCache_store_then_read w1 w2 ∅ c1 "weather" params
           Sample.current_payload); [|exact H1|simpl; lia].
  intros entry E. rewrite lookup_empty in E. discriminate.
Defined.

Lemma views_do_not_collide_witness :
  let w := Sample.world_with (Sample.ok_with Sample.current_payload) 1700000000000 in
  let c : gmap string cache_entry :=
    {[ getCacheKey "weather" (weather_params Sample.lat Sample.lon "onecall")
       := mkEntry Sample.onecall_payload 1000 ]} in
  fst (fetchWithCache w c "weather" (weather_params Sample.lat Sample.lon "current"))
    !! getCacheKey "weather" (weather_params Sample.lat Sample.lon "onecall")
  = Some (mkEntry Sample.onecall_payload 1000).
Proof.
  intros w c.
  rewrite (proj2 (views_do_not_collide w c "weather" Sample.lat Sample.lon
                    "current" "onecall" ltac:(discriminate))).
  apply lookup_singleton_eq.
Defined.

Lemma onecall_entry_shared_witness :
  let params := weather_params Sample.lat Sample.lon "onecall" in
  let w1 := Sample.world_with (Sample.ok_with Sample.onecall_payload) 1700000000000 in
  let w2 := Sample.world_with Sample.outage 1700000001000 in
  let c1 : gmap string cache_entry :=
    {[ getCacheKey "weather" params := mkEntry Sample.onecall_payload 1700000000000 ]} in
  fst (getDailyForecast Sample.StringToNumber Sample.LocalTZA Sample.toLocaleDateString
         w1 ∅ Sample.lat Sample.lon) = c1
  /\ getWeatherAlerts Sample.StringToNumber w2 c1 Sample.lat Sample.lon
     = (c1, try_catch (weatherAlerts_of Sample.StringToNumber Sample.onecall_payload)
              (fun _ => Ok [])).
Proof.
  intros params w1 w2 c1.
  destruct (onecall_entry_shared Sample.StringToNumber Sample.LocalTZA
              Sample.toLocaleDateString w1 w2 ∅ c1 Sample.lat Sample.lon
              Sample.onecall_payload) as (Hd & _ & Ha & _).
  - intros entry E. rewrite lookup_empty in E. discriminate.
  - vm_compute. reflexivity.
  - simpl. lia.
  - split; [exact Hd|exact Ha].
Defined.

Lemma alerts_all_or_nothing_witness :
  let d := VObj [("alerts", VArr [Sample.alert_item "Wind Advisory"; VObj []])] in
  let w := Sample.world_with (Sample.ok_with d) 1700000000000 in
  is_ok (alert_of_item Sample.StringToNumber 0 (Sample.alert_item "Wind Advisory")) = true
  /\ snd (getWeatherAlerts Sample.StringToNumber w ∅ Sample.lat Sample.lon) = Ok [].
Proof.
  intros d w. split; [vm_compute; reflexivity|].
  apply (alerts_all_or_nothing Sample.StringToNumber w ∅ Sample.lat Sample.lon d
           [Sample.alert_item "Wind Advisory"; VObj []] 1%nat (VObj []));
    vm_compute; reflexivity.
Defined.

Lemma getCurrentWeather_conforming_witness :
  let w := Sample.world_with (Sample.ok_with Sample.current_payload) 1700000000000 in
  exists v,
    snd (getCurrentWeather Sample.StringToNumber w ∅ Sample.lat Sample.lon) = Ok v
    /\ currentWeather_of Sample.StringToNumber Sample.current_payload = Ok v
    /\ complete_WeatherData v = true.
Proof.
  intros w.
  apply (getCurrentWeather_conforming Sample.StringToNumber w ∅ Sample.lat Sample.lon
           Sample.current_payload); vm_compute; reflexivity.
Defined.

Lemma visibility_conversion_witness :
  exists v,
    currentWeather_of Sample.StringToNumber Sample.current_payload = Ok v
    /\ exists r, WeatherData.visibility v = Fin r /\ (r == 8000 / 1000)%Q.
Proof.
  eexists. split; [vm_compute; reflexivity|].
  refine (visibility_conversion Sample.StringToNumber Sample.current_payload 8000 _ _ _);
    vm_compute; reflexivity.
Defined.

Lemma precipitation_percentage_witness :
  let item := Sample.daily_item 1700000000 in
  get_prop item "pop" = Ok (VNum (Fin 0.25))
  /\ forall index e,
       daily_of_item Sample.StringToNumber Sample.LocalTZA Sample.toLocaleDateString
         index item = Ok e ->
       exists z, DailyForecast.precipitation e = num_of_Z z /\ 0 <= z <= 100.
Proof.
  intros item.
  assert (H : get_prop item "pop" = Ok (VNum (Fin 0.25))) by (vm_compute; reflexivity).
  split; [exact H|].
  refine (proj2 (precipitation_percentage Sample.StringToNumber Sample.LocalTZA
                   Sample.toLocaleDateString Sample.toLocaleTimeString item 0.25 H _ _));
    vm_compute; discriminate.
Defined.


Lemma city_search_survives_weather_outage_witness :
  let g0 := VObj [("name", VStr "Paris"); ("lat", VNum (Fin 48.8566));
                  ("lon", VNum (Fin 2.3522)); ("country", VStr "FR")] in
  let w := Sample.world_with (Sample.ok_with (VArr [g0])) 1700000000000 in
  exists c' weather,
    getWeatherByCity Sample.StringToNumber None w ∅ "Paris"
    = (c', Ok (weather, (VNum (Fin 48.8566), VNum (Fin 2.3522))))
    /\ WeatherData.location weather = "Paris" +:+ ", " +:+ "FR".
Proof.
  intros g0 w.
  apply (proj1 (city_search_survives_weather_outage Sample.StringToNumber None w ∅
                  "Paris" "OK" g0 [] (VNum (Fin 48.8566)) (VNum (Fin 2.3522))
                  "Paris" "FR" eq_refl eq_refl)).
Defined.

Lemma GET_cors_only_on_success_witness :
  let fetch := fun _ : string => Sample.ok_with Sample.current_payload in
  let query := [("lat", "37.7749"); ("lon", "-122.4194")] in
  exists r, Route.GET (Some "secret") fetch query = Ok r
    /\ Route.status r = 200
    /\ Route.headers r = Route.headers OPTIONS.
Proof.
  intros fetch query.
  exists (Route.mkResponse 200 Sample.current_payload Route.cors_headers).
  assert (H : Route.GET (Some "secret") fetch query
              = Ok (Route.mkResponse 200 Sample.current_payload Route.cors_headers))
    by (vm_compute; reflexivity).
  split; [exact H|]. split; [reflexivity|].
  apply (proj1 (GET_cors_only_on_success (Some "secret") fetch query _ H)). reflexivity.
Defined.

Lemma handleSearch_any_failure_witness :
  let w := Sample.world_with Sample.outage 1700000000000 in
  let s' := Page.handleSearch Sample.StringToNumber Sample.LocalTZA
              Sample.toLocaleDateString Sample.toLocaleTimeString None w w w w
              Sample.page in
  displayed s' = displayed Sample.page
  /\ Page.searchError s'
     = Some "Failed to get weather for Atlantis: Failed to geocode city: Service Unavailable"
  /\ Page.timers s' = [(3000, Page.ClearSearchError)].
Proof.
  intros w s'.
  destruct (handleSearch_any_failure Sample.StringToNumber Sample.LocalTZA
              Sample.toLocaleDateString Sample.toLocaleTimeString None w w w w
              Sample.page
              (Error "Failed to get weather for Atlantis: Failed to geocode city: Service Unavailable"))
    as (Hd & _ & _ & He & Ht & _).
  - vm_compute. discriminate.
  - vm_compute. reflexivity.
  - split; [exact Hd|]. split; [exact He|exact Ht].
Defined.

Lemma stale_timer_clears_new_message_witness :
  let w := Sample.world_with Sample.no_city 1700000000000 in
  let s := Page.setTimeout Page.ClearSearchError 1000 Sample.page in
  let s' := Page.handleSearch Sample.StringToNumber Sample.LocalTZA
              Sample.toLocaleDateString Sample.toLocaleTimeString None w w w w s in
  Page.searchError s' = Some (not_found_message "Atlantis")
  /\ Page.searchError (Page.elapse 1000 s') = None.
Proof.
  intros w s s'.
  apply (stale_timer_clears_new_message Sample.StringToNumber Sample.LocalTZA
           Sample.toLocaleDateString Sample.toLocaleTimeString None w w w w s
           (Error (not_found_message "Atlantis")) 1000).
  - vm_compute. discriminate.
  - vm_compute. reflexivity.
  - left. reflexivity.
  - lia.
Defined.


Lemma city_search_errors_witness :
  let w := Sample.world_with Sample.outage 1700000000000 in
  getWeatherByCity Sample.StringToNumber None w ∅ "Paris"
  = (∅, Throw (Error ("Failed to get weather for " +:+ "Paris" +:+ ": "
                      +:+ "Failed to geocode city: " +:+ "Service Unavailable"))).
Proof.
  intros w.
  apply (proj1 (proj2 (proj2 (city_search_errors Sample.StringToNumber None w ∅ "Paris")))
           "Service Unavailable" (Ok VNull)).
  reflexivity.
Defined.

Lemma GET_validation_offline_witness :
  let query := [("lon", "-122.4194"); ("type", "forecast")] in
  Route.GET (Some "secret") (fun _ => Sample.outage) query
  = Ok (Route.error_response "Latitude and longitude are required" 400).
Proof.
  intros query.
  apply (proj1 (proj2 (GET_validation_offline (Some "secret") (fun _ => Sample.outage)
                         (fun _ => Sample.outage) query))).
  left. reflexivity.
Defined.

Lemma handleSearch_blank_or_done_witness :
  let w := Sample.world_with Sample.outage 1700000000000 in
  let s := Page.setSearchQuery "   " Sample.page in
  Page.handleSearch Sample.StringToNumber Sample.LocalTZA Sample.toLocaleDateString
    Sample.toLocaleTimeString None w w w w s = s.
Proof.
  intros w s.
  apply (proj1 (handleSearch_blank_or_done Sample.StringToNumber Sample.LocalTZA
                  Sample.toLocaleDateString Sample.toLocaleTimeString None w w w w s)).
  reflexivity.
Defined.


Lemma fetchWeatherData_label_witness :
  let w := Sample.world_with Sample.outage 1700000000000 in
  let s := Page.setUserLocation None Sample.page in
  let s' := fetchWeatherData Sample.StringToNumber Sample.LocalTZA
              Sample.toLocaleDateString Sample.toLocaleTimeString
              GeolocationUnsupported w w w w VUndef VUndef s in
  exists clat clon, Page.userLocation s' = Some (clat, clon, "Unknown Location").
Proof.
  intros w s s'.
  apply (proj1 (fetchWeatherData_label Sample.StringToNumber Sample.LocalTZA
                  Sample.toLocaleDateString Sample.toLocaleTimeString
                  GeolocationUnsupported w w w w VUndef VUndef s) eq_refl).
  - intros key entry E. change (Page.cache s) with (∅ : gmap string cache_entry) in E.
    rewrite lookup_empty in E. discriminate.
  - reflexivity.
Defined.


Lemma addLocationAlert_from_page_witness :
  exists a,
    addLocationAlert (userLocation_prop (Page.userLocation Sample.page)) 1700000000000 []
    = [a]
    /\ LocationAlert.location a = VStr "San Francisco, US"
    /\ LocationAlert.lng a = VUndef
    /\ is_ok (coordinates_label a) = false.
Proof.
  destruct (addLocationAlert_from_page (Page.userLocation Sample.page) 1700000000000 [])
    as (a & Ha & _ & Hl & _ & Hg & _ & Hc).
  exists a. split; [exact Ha|]. split; [exact Hl|]. split; [exact Hg|exact Hc].
Defined.
